(** * Rheology prediction app: validation and prediction workflow

    A shallow embedding of [Rheology_Parameters_Streamlit_app.py].  The
    script is a straight-line Streamlit page: it loads three pickled
    estimators, reads eight numeric widgets, validates them, and on a
    button press builds two one-row data frames and asks every estimator
    for a prediction.

    Numbers are IEEE-754 binary64 values, as Python's [float] is, so the
    binder-sum test is the real floating-point test of the script.

    Streamlit's display calls are modelled by what they add to the page,
    in order; texts built with f-strings are kept as the values they
    interpolate.  [joblib.load] and [model.predict] are the two calls
    into foreign code: each returns a value or throws an [Exception].
    Styling, [st.set_page_config] and the layout columns carry no
    behaviour of their own and are left out. *)

From Stdlib Require Import ZArith List String Bool Floats Lia.
Import ListNotations.

Set Warnings "-inexact-float".
Local Open Scope list_scope.

(** ** Python numbers *)

(** The script mixes [int] literals (the bounds [40], [100], ..., the
    constant [100] of the binder test, the time values [0] and [1]) with
    [float] values (every widget value, the bounds [0.5], [0.4], ...). *)
Inductive PyNum : Type :=
| PyInt (z : Z)
| PyFloat (f : float).

(** Python compares an [int] with a [float] by exact value.  Every [int]
    literal of the script lies in [0, 2^53], where the conversion to
    binary64 is exact, so comparing after conversion gives the same
    answer. *)
Definition to_float (x : PyNum) : float :=
  match x with
  | PyInt z => PrimFloat.of_uint63 (Uint63.of_Z z)
  | PyFloat f => f
  end.

(** [a <= b] *)
Definition py_le (a b : PyNum) : bool :=
  match a, b with
  | PyInt x, PyInt y => (x <=? y)%Z
  | _, _ => (to_float a <=? to_float b)%float
  end.

(** [a < b] *)
Definition py_lt (a b : PyNum) : bool :=
  match a, b with
  | PyInt x, PyInt y => (x <? y)%Z
  | _, _ => (to_float a <? to_float b)%float
  end.

(** [a == b] *)
Definition py_eq (a b : PyNum) : bool :=
  match a, b with
  | PyInt x, PyInt y => (x =? y)%Z
  | _, _ => (to_float a =? to_float b)%float
  end.

(** [a != b]: for numbers, the negation of [==] (so [nan != 100]). *)
Definition py_ne (a b : PyNum) : bool := negb (py_eq a b).

(** ** Data frames, estimators, thrown objects *)

(** [pd.DataFrame([input_values], columns=feature_names)] *)
Record DataFrame : Type := mkDataFrame {
  df_rows : list (list PyNum);
  df_columns : list string
}.

(** What a statement can throw.  [Exception msg] stands for any instance
    of Python's [Exception]; [StopException] is what [st.stop()] throws to
    end the current script run, and is not an [Exception], so that
    [except Exception] does not catch it. *)
Inductive Thrown : Type :=
| Exception (msg : string)
| StopException.

(** One row of [results]: [[label, sys_pred, dys_pred, pv_pred]]. *)
Record Row : Type := mkRow {
  row_label : string;
  row_sys : float;
  row_dys : float;
  row_pv : float
}.

(** One entry of [out_of_range].  The script formats it as
    ["{param} = {val} (allowed: {low}-{high})"]; the model keeps the four
    interpolated values. *)
Record Violation : Type := mkViolation {
  v_param : string;
  v_val : PyNum;
  v_low : PyNum;
  v_high : PyNum
}.

(** The eight number widgets of Step 1. *)
Record Inputs : Type := mkInputs {
  w_opc : float;
  w_cc : float;
  w_lp : float;
  w_nc : float;
  w_gyp : float;
  w_sb : float;
  w_wb : float;
  w_sp : float
}.

(** Texts of [st.error]. *)
Inductive ErrorMsg : Type :=
| CouldNotLoad (path : string) (e : string)      (* load_model *)
| BinderNot100 (binder_sum : float)              (* Step 2 *)
| PredictionFailed (label : string) (e : string) (* Step 3, time loop *)
| ModelsNotLoaded.                               (* Step 3, else branch *)

(** Texts of [st.success]. *)
Inductive SuccessMsg : Type :=
| BinderCheckPassed
| AllInRange.

(** Blocks given to [st.markdown] / [st.write]. *)
Inductive Block : Type :=
| Style
| TitleBox
| Introduction
| StepTitle (n : nat)
| ResultTable (rows : list Row)
| Footer.

(** The two figures given to [st.pyplot]. *)
Inductive Chart : Type :=
| YieldStressVsTime (rows : list Row)
| PlasticViscosityVsTime (rows : list Row).

(** What the script puts on the page, in order. *)
Inductive Element : Type :=
| Error (m : ErrorMsg)
| Success (m : SuccessMsg)
| Warning (entries : list Violation)
| Markdown (b : Block)
| NumberInput (label : string)
| Button (label : string)
| Subheader (text : string)
| Pyplot (c : Chart).

(** A loaded estimator.  [truthy] is what Python's [bool(model)] gives
    (an object with [__len__] or [__bool__] can be falsy).  [predict]
    stands for [model.predict(input_data)[0]]: it returns a number or
    throws an [Exception] with a message.  Estimator code is opaque to
    the script, so it may read and change some state [W] of its own; it
    cannot rebind the script's variables, and the floats it is handed are
    immutable. *)
Record Estimator (W : Type) : Type := mkEstimator {
  truthy : bool;
  predict : W -> DataFrame -> W * (float + string)
}.
Arguments mkEstimator {W} _ _.
Arguments truthy {W} _.
Arguments predict {W} _ _ _.

(** The value of [model_SYS], [model_DYS], [model_PV]. *)
Inductive PyVal (W : Type) : Type :=
| PyNone
| PyObject (o : Estimator W).
Arguments PyNone {W}.
Arguments PyObject {W} _.

(** A script run.  [widgets] and [predict_btn] are the session's widget
    state (the numbers typed in, whether the button was pressed);
    [page] is what has been rendered so far; [world] is the estimators'
    own state; [calls] records every [predict] call made, with the
    estimator's name and the frame it received. *)
Record State (W : Type) : Type := mkState {
  widgets : Inputs;
  predict_btn : bool;
  page : list Element;
  world : W;
  calls : list (string * DataFrame)
}.
Arguments mkState {W} _ _ _ _ _.
Arguments widgets {W} _.
Arguments predict_btn {W} _.
Arguments page {W} _.
Arguments world {W} _.
Arguments calls {W} _.

(** Statements: they change the run's state and either return a value or
    throw.  A throw keeps the state reached so far, as in Python. *)
Definition M (W A : Type) : Type := State W -> (A + Thrown) * State W.

Definition ret {W A : Type} (a : A) : M W A := fun s => (inl a, s).

Definition bind {W A B : Type} (m : M W A) (k : A -> M W B) : M W B :=
  fun s =>
    match m s with
    | (inl a, s') => k a s'
    | (inr t, s') => (inr t, s')
    end.

Declare Scope py_scope.
Delimit Scope py_scope with py.
Notation "x <- c1 ;; c2" := (bind c1 (fun x => c2))
  (at level 100, c1 at next level, right associativity) : py_scope.
Notation "c1 ;; c2" := (bind c1 (fun _ => c2))
  (at level 100, right associativity) : py_scope.

Local Open Scope string_scope.
Local Open Scope list_scope.
Local Open Scope py_scope.

(** ** Sample mixes, estimators and disks *)

(** The widget defaults of the script. *)
Definition mix_default : Inputs := mkInputs 50 20 10 2 2 1 0.45 1.

(** A mix inside every recommended range. *)
Definition mix_in_range : Inputs := mkInputs 60 28 10 2 2 1 0.45 1.

(** A mix whose binder sum is 100 with OPC below and GYP above their
    recommended ranges. *)
Definition mix_off_range : Inputs := mkInputs 38 43 15 2 4 1 0.45 1.

(** A mix with every value on a bound of its recommended range. *)
Definition mix_at_bounds : Inputs := mkInputs 40 43 15 5 2 0.5 0.55 2.5.


(** The time value of a one-row frame: its last cell. *)
Definition frame_time (X : DataFrame) : PyNum :=
  match df_rows X with
  | [r] => last r (PyInt 0)
  | _ => PyInt 0
  end.

(** The first cell of a one-row frame. *)
Definition frame_first (X : DataFrame) : float :=
  match df_rows X with
  | [x :: _] => to_float x
  | _ => 0%float
  end.

(** Sample estimators keep a call counter as their state. *)
Definition affine_model (k : float) : Estimator nat :=
  mkEstimator true
    (fun n X => (S n, inl (k * frame_first X + to_float (frame_time X))%float)).

(** Throws when asked about time value [t]. *)
Definition failing_at (t : Z) (k : float) : Estimator nat :=
  mkEstimator true
    (fun n X =>
       (S n, if py_eq (frame_time X) (PyInt t)
             then inr "input contains NaN"
             else inl (k * frame_first X)%float)).

(** Answers with the number of calls made so far: not deterministic. *)
Definition counting_model : Estimator nat :=
  mkEstimator true
    (fun n X => (S n, inl (to_float (PyInt (Z.of_nat n))))).

(** Unpickles fine but is falsy (say, an empty pipeline). *)
Definition falsy_model : Estimator nat :=
  mkEstimator false (fun n X => (S n, inl 0%float)).

Definition disk_of (sys dys pv : PyVal nat + string) (path : string) : PyVal nat + string :=
  if String.eqb path "GUI_SYS.joblib" then sys
  else if String.eqb path "GUI_DYS.joblib" then dys
  else if String.eqb path "GUI_PV.joblib" then pv
  else inr "No such file or directory".

Definition disk_ok : string -> PyVal nat + string :=
  disk_of (inl (PyObject (affine_model 2))) (inl (PyObject (affine_model 1)))
          (inl (PyObject (affine_model 0.5))).

Definition disk_no_dys : string -> PyVal nat + string :=
  disk_of (inl (PyObject (affine_model 2))) (inr "No such file or directory")
          (inl (PyObject (affine_model 0.5))).

Definition disk_falsy_pv : string -> PyVal nat + string :=
  disk_of (inl (PyObject (affine_model 2))) (inl (PyObject (affine_model 1)))
          (inl (PyObject falsy_model)).

(** ** The script *)

Section App.

Variable W : Type.

(** [joblib.load(path)]: the unpickled value, or the message of the
    [Exception] thrown (missing or corrupt file, ...). *)
Variable joblib_load : string -> PyVal W + string.

(** Truth value of a loaded model: [None] is falsy. *)
Definition py_bool (v : PyVal W) : bool :=
  match v with
  | PyNone => false
  | PyObject o => truthy o
  end.

(** [a and b]: the first operand when it is falsy, else the second. *)
Definition py_and (a b : PyVal W) : PyVal W :=
  if py_bool a then b else a.

Definition render (e : Element) : M W unit :=
  fun s => (inl tt, mkState (widgets s) (predict_btn s) (page s ++ [e]) (world s) (calls s)).

Definition st_error (m : ErrorMsg) : M W unit := render (Error m).
Definition st_success (m : SuccessMsg) : M W unit := render (Success m).
Definition st_warning (entries : list Violation) : M W unit := render (Warning entries).
Definition st_markdown (b : Block) : M W unit := render (Markdown b).
Definition st_write (b : Block) : M W unit := render (Markdown b).
Definition st_subheader (text : string) : M W unit := render (Subheader text).
Definition st_pyplot (c : Chart) : M W unit := render (Pyplot c).

(** [st.number_input(label, ...)]: draws the widget, returns its value. *)
Definition st_number_input (label : string) (field : Inputs -> float) : M W float :=
  fun s => (inl (field (widgets s)),
            mkState (widgets s) (predict_btn s) (page s ++ [NumberInput label]) (world s) (calls s)).

(** [st.button(label)]: draws the button, returns whether it was pressed. *)
Definition st_button (label : string) : M W bool :=
  fun s => (inl (predict_btn s),
            mkState (widgets s) (predict_btn s) (page s ++ [Button label]) (world s) (calls s)).

(** [st.stop()] *)
Definition st_stop {A : Type} : M W A := fun s => (inr StopException, s).

(** [try: body  except Exception as e: handler e] *)
Definition try_except {A : Type} (body : M W A) (handler : string -> M W A) : M W A :=
  fun s =>
    match body s with
    | (inr (Exception e), s') => handler e s'
    | r => r
    end.

(** The call [joblib.load(path)] as a statement. *)
Definition call_joblib_load (path : string) : M W (PyVal W) :=
  fun s =>
    match joblib_load path with
    | inl v => (inl v, s)
    | inr e => (inr (Exception e), s)
    end.

(** The call [model.predict(input_data)[0]] as a statement; [name] is
    only recorded in [calls]. *)
Definition call_predict (name : string) (model : PyVal W) (input_data : DataFrame) : M W float :=
  fun s =>
    match model with
    | PyNone => (inr (Exception "'NoneType' object has no attribute 'predict'"), s)
    | PyObject o =>
        let (w', r) := predict o (world s) input_data in
        let s' := mkState (widgets s) (predict_btn s) (page s) w'
                          (calls s ++ [(name, input_data)]) in
        match r with
        | inl y => (inl y, s')
        | inr e => (inr (Exception e), s')
        end
    end.

(** [for x in l: acc = body acc x] *)
Fixpoint for_in {A B : Type} (l : list B) (body : A -> B -> M W A) (acc : A) : M W A :=
  match l with
  | [] => ret acc
  | x :: l' => acc' <- body acc x;; for_in l' body acc'
  end.

(** Lines 10-15. *)
Definition load_model (path : string) : M W (PyVal W) :=
  try_except (call_joblib_load path)
             (fun e => st_error (CouldNotLoad path e);; ret PyNone).

(** Lines 108-133: the eight widgets, in the order the script draws them.
    A widget is named here by the field it edits; the script's label adds
    the recommended range in brackets, as a hint only.  Each widget is
    declared with [min_value=0.0] and a float default, so it returns a
    float. *)
Definition step1 : M W Inputs :=
  st_markdown (StepTitle 1);;
  opc <- st_number_input "OPC (%)" w_opc;;
  cc <- st_number_input "CC (%)" w_cc;;
  lp <- st_number_input "LP (%)" w_lp;;
  nc <- st_number_input "NC (%)" w_nc;;
  gyp <- st_number_input "GYP (%)" w_gyp;;
  sb <- st_number_input "S/B" w_sb;;
  wb <- st_number_input "W/B" w_wb;;
  sp <- st_number_input "SP (%)" w_sp;;
  ret (mkInputs opc cc lp nc gyp sb wb sp).

(** Lines 147-156: the dict [ranges], in insertion order; each value is
    [(low, high, val)]. *)
Definition ranges (v : Inputs) : list (string * (PyNum * PyNum * PyNum)) :=
  [ ("OPC (%)", (PyInt 40, PyInt 100, PyFloat (w_opc v)));
    ("CC (%)", (PyInt 0, PyInt 43, PyFloat (w_cc v)));
    ("LP (%)", (PyInt 0, PyInt 23, PyFloat (w_lp v)));
    ("NC (%)", (PyInt 0, PyInt 5, PyFloat (w_nc v)));
    ("GYP (%)", (PyInt 0, PyInt 3, PyFloat (w_gyp v)));
    ("S/B", (PyFloat 0.5, PyFloat 2.5, PyFloat (w_sb v)));
    ("W/B", (PyFloat 0.4, PyFloat 0.55, PyFloat (w_wb v)));
    ("SP (%)", (PyFloat 0.5, PyFloat 2.5, PyFloat (w_sp v))) ].

(** [low <= val <= high] *)
Definition within (low high val : PyNum) : bool :=
  py_le low val && py_le val high.

(** Lines 157-160. *)
Definition out_of_range (v : Inputs) : list Violation :=
  fold_left
    (fun acc '(param, (low, high, val)) =>
       if negb (within low high val)
       then acc ++ [mkViolation param val low high]
       else acc)
    (ranges v) [].

(** Lines 140-145. *)
Definition binder_sum (v : Inputs) : float :=
  (w_opc v + w_cc v + w_lp v + w_gyp v)%float.

(** Lines 138-165. *)
Definition step2 (v : Inputs) : M W unit :=
  st_markdown (StepTitle 2);;
  (if py_ne (PyFloat (binder_sum v)) (PyInt 100)
   then st_error (BinderNot100 (binder_sum v));; st_stop
   else st_success BinderCheckPassed);;
  match out_of_range v with
  | _ :: _ => st_warning (out_of_range v)
  | [] => st_success AllInRange
  end.

Definition feature_names : list string :=
  ["OPC (%)"; "CC (%)"; "LP (%)"; "NC (%)"; "GYP (%)"; "S/B"; "W/B"; "SP (%)"; "Time"].

(** Line 179. *)
Definition input_values (v : Inputs) (time_val : Z) : list PyNum :=
  [PyFloat (w_opc v); PyFloat (w_cc v); PyFloat (w_lp v); PyFloat (w_nc v);
   PyFloat (w_gyp v); PyFloat (w_sb v); PyFloat (w_wb v); PyFloat (w_sp v);
   PyInt time_val].

(** Line 180. *)
Definition input_data (v : Inputs) (time_val : Z) : DataFrame :=
  mkDataFrame [input_values v time_val] feature_names.

(** Lines 183-186: the body of the [try]. *)
Definition try_body (model_SYS model_DYS model_PV : PyVal W) (v : Inputs)
    (results : list Row) (time_val : Z) (label : string) : M W (list Row) :=
  sys_pred <- call_predict "SYS" model_SYS (input_data v time_val);;
  dys_pred <- call_predict "DYS" model_DYS (input_data v time_val);;
  pv_pred <- call_predict "PV" model_PV (input_data v time_val);;
  ret (results ++ [mkRow label sys_pred dys_pred pv_pred]).

(** Lines 179-188: one turn of the time loop. *)
Definition time_step (model_SYS model_DYS model_PV : PyVal W) (v : Inputs)
    (results : list Row) (tl : Z * string) : M W (list Row) :=
  let (time_val, label) := tl in
  try_except
    (try_body model_SYS model_DYS model_PV v results time_val label)
    (fun e => st_error (PredictionFailed label e);; ret results).

(** Lines 174-188. *)
Definition time_loop (model_SYS model_DYS model_PV : PyVal W) (v : Inputs) : M W (list Row) :=
  for_in (combine [0%Z; 1%Z] ["10 min"; "30 min"])
         (time_step model_SYS model_DYS model_PV v) [].

(** Lines 190-263. *)
Definition show_results (results : list Row) : M W unit :=
  match results with
  | [] => ret tt
  | _ :: _ =>
      st_subheader "Prediction Results";;
      st_markdown (ResultTable results);;
      st_subheader "Yield Stress vs Time";;
      st_pyplot (YieldStressVsTime results);;
      st_subheader "Plastic Viscosity vs Time";;
      st_pyplot (PlasticViscosityVsTime results)
  end.

(** Lines 173-263: what a press of the button runs. *)
Definition on_predict (model_SYS model_DYS model_PV : PyVal W) (v : Inputs) : M W unit :=
  results <- time_loop model_SYS model_DYS model_PV v;;
  show_results results.

(** Lines 170-265. *)
Definition step3 (model_SYS model_DYS model_PV : PyVal W) (v : Inputs) : M W unit :=
  st_markdown (StepTitle 3);;
  if py_bool (py_and (py_and model_SYS model_DYS) model_PV)
  then
    clicked <- st_button "Predict rheological parameters";;
    if (clicked : bool) then on_predict model_SYS model_DYS model_PV v else ret tt
  else st_error ModelsNotLoaded.

(** Lines 17-19. *)
Definition load_models : M W (PyVal W * PyVal W * PyVal W) :=
  model_SYS <- load_model "GUI_SYS.joblib";;
  model_DYS <- load_model "GUI_DYS.joblib";;
  model_PV <- load_model "GUI_PV.joblib";;
  ret (model_SYS, model_DYS, model_PV).

(** The whole file, top to bottom. *)
Definition script : M W unit :=
  models <- load_models;;
  let '(model_SYS, model_DYS, model_PV) := models in
  st_markdown Style;;
  st_markdown TitleBox;;
  st_write Introduction;;
  v <- step1;;
  step2 v;;
  step3 model_SYS model_DYS model_PV v;;
  st_markdown Footer.

(** A fresh run of the script. *)
Definition start (inp : Inputs) (clicked : bool) (w : W) : State W :=
  mkState inp clicked [] w [].

(** ** Vocabulary for the statements *)

(** The run [s] with [l] rendered after what it already shows. *)
Definition extend (s : State W) (l : list Element) : State W :=
  mkState (widgets s) (predict_btn s) (page s ++ l) (world s) (calls s).

(** What [load_model path] returns, and what it renders. *)
Definition loaded (path : string) : PyVal W :=
  match joblib_load path with
  | inl v => v
  | inr _ => PyNone
  end.

Definition load_errors (path : string) : list Element :=
  match joblib_load path with
  | inl _ => []
  | inr e => [Error (CouldNotLoad path e)]
  end.

Definition artifacts : list string :=
  ["GUI_SYS.joblib"; "GUI_DYS.joblib"; "GUI_PV.joblib"].

(** Everything rendered before Step 2, load errors apart. *)
Definition header_page : list Element :=
  [Markdown Style; Markdown TitleBox; Markdown Introduction; Markdown (StepTitle 1);
   NumberInput "OPC (%)"; NumberInput "CC (%)"; NumberInput "LP (%)";
   NumberInput "NC (%)"; NumberInput "GYP (%)"; NumberInput "S/B";
   NumberInput "W/B"; NumberInput "SP (%)"].

(** The entry appended for a field of [ranges], and the test that
    decides whether it is appended. *)
Definition entry_of (r : string * (PyNum * PyNum * PyNum)) : Violation :=
  let '(param, (low, high, val)) := r in mkViolation param val low high.

Definition violates (r : string * (PyNum * PyNum * PyNum)) : bool :=
  let '(_, (low, high, val)) := r in negb (within low high val).

(** The entries of [out_of_range] that name [param]. *)
Definition entries_for (param : string) (v : Inputs) : list Violation :=
  filter (fun e => String.eqb (v_param e) param) (out_of_range v).

(** The one element the range check renders. *)
Definition range_report (v : Inputs) : Element :=
  match out_of_range v with
  | _ :: _ => Warning (out_of_range v)
  | [] => Success AllInRange
  end.

(** What [show_results] renders. *)
Definition results_view (results : list Row) : list Element :=
  match results with
  | [] => []
  | _ :: _ =>
      [Subheader "Prediction Results"; Markdown (ResultTable results);
       Subheader "Yield Stress vs Time"; Pyplot (YieldStressVsTime results);
       Subheader "Plastic Viscosity vs Time"; Pyplot (PlasticViscosityVsTime results)]
  end.

(** The all-or-nothing test of Step 3. *)
Definition gate (model_SYS model_DYS model_PV : PyVal W) : bool :=
  py_bool (py_and (py_and model_SYS model_DYS) model_PV).

Definition is_error (e : Element) : bool :=
  match e with
  | Error _ => true
  | _ => false
  end.

(** Output of the range check. *)
Definition is_range_output (e : Element) : bool :=
  match e with
  | Warning _ | Success AllInRange => true
  | _ => false
  end.

(** Output of Step 3 below its title. *)
Definition is_prediction_output (e : Element) : bool :=
  match e with
  | Button _ | Subheader _ | Pyplot _ | Markdown (ResultTable _)
  | Error (PredictionFailed _ _) | Error ModelsNotLoaded => true
  | _ => false
  end.

(** The button, a result view, or a per-time prediction error: what the
    page shows only when prediction is offered. *)
Definition is_prediction_offer (e : Element) : bool :=
  match e with
  | Button _ | Subheader _ | Pyplot _ | Markdown (ResultTable _)
  | Error (PredictionFailed _ _) => true
  | _ => false
  end.

Definition is_button (e : Element) : bool :=
  match e with
  | Button _ => true
  | _ => false
  end.

Definition is_binder_passed (e : Element) : bool :=
  match e with
  | Success BinderCheckPassed => true
  | _ => false
  end.

Definition is_models_not_loaded (e : Element) : bool :=
  match e with
  | Error ModelsNotLoaded => true
  | _ => false
  end.

(** The table or a chart. *)
Definition is_result_view (e : Element) : bool :=
  match e with
  | Subheader _ | Pyplot _ | Markdown (ResultTable _) => true
  | _ => false
  end.

(** What a statement may do to a run: render [l], make the calls [c]. *)
Definition delta (s s' : State W) (l : list Element) (c : list (string * DataFrame)) : Prop :=
  widgets s' = widgets s /\ predict_btn s' = predict_btn s /\
  page s' = page s ++ l /\ calls s' = calls s ++ c.

(** An estimator that answers every call with a number. *)
Definition never_throws (o : Estimator W) : Prop :=
  forall w X, exists w' y, predict o w X = (w', inl y).

(** A statement that returns the same value, renders the same elements
    and makes the same calls from any two runs, and leaves the widget
    values of both untouched. *)
Definition agree {A : Type} (m : M W A) : Prop :=
  forall s1 s2,
  exists l c,
    fst (m s1) = fst (m s2)
    /\ delta s1 (snd (m s1)) l c
    /\ delta s2 (snd (m s2)) l c.

(** A model whose answer depends on the frame alone. *)
Definition deterministic (model : PyVal W) : Prop :=
  match model with
  | PyNone => True
  | PyObject o => forall w w' X, snd (predict o w X) = snd (predict o w' X)
  end.

(** The three calls the [try] body makes for one time value, in order. *)
Definition three_calls (v : Inputs) (time_val : Z) : list (string * DataFrame) :=
  [("SYS", input_data v time_val); ("DYS", input_data v time_val);
   ("PV", input_data v time_val)].

(** What a press of the button can render: a per-time error or a result
    view. *)
Definition is_press_output (e : Element) : bool :=
  match e with
  | Subheader _ | Pyplot _ | Markdown (ResultTable _)
  | Error (PredictionFailed _ _) => true
  | _ => false
  end.

(** The three ways a run can end Steps 2 and 3: the binder error, the
    models-not-loaded error, or the button. *)
Definition is_step_outcome (e : Element) : bool :=
  match e with
  | Error (BinderNot100 _) | Error ModelsNotLoaded | Button _ => true
  | _ => false
  end.

Definition is_load_error (e : Element) : bool :=
  match e with
  | Error (CouldNotLoad _ _) => true
  | _ => false
  end.

(** A binary64 value that is a zero or a finite non-zero number. *)
Definition SF_is_fin (x : spec_float) : bool :=
  match x with
  | S754_zero _ | S754_finite _ _ _ => true
  | _ => false
  end.

(** ** Running statements *)

Lemma bind_inl {A B : Type} (m : M W A) (k : A -> M W B) s a s' :
  m s = (inl a, s') -> bind m k s = k a s'.
Proof. intros H. unfold bind. rewrite H. reflexivity. Qed.

Lemma bind_inr {A B : Type} (m : M W A) (k : A -> M W B) s t s' :
  m s = (inr t, s') -> bind m k s = (inr t, s').
Proof. intros H. unfold bind. rewrite H. reflexivity. Qed.

Lemma extend_nil s : extend s [] = s.
Proof. destruct s. unfold extend. cbn. rewrite app_nil_r. reflexivity. Qed.

Lemma extend_extend s l l' : extend (extend s l) l' = extend s (l ++ l').
Proof. unfold extend. cbn. rewrite app_assoc. reflexivity. Qed.

Lemma render_run e s : render e s = (inl tt, extend s [e]).
Proof. reflexivity. Qed.

Lemma load_model_run path s :
  load_model path s = (inl (loaded path), extend s (load_errors path)).
Proof.
  unfold load_model, try_except, call_joblib_load, loaded, load_errors.
  destruct (joblib_load path) as [v | e].
  - rewrite extend_nil. reflexivity.
  - reflexivity.
Qed.

Lemma load_models_run s :
  load_models s =
  (inl (loaded "GUI_SYS.joblib", loaded "GUI_DYS.joblib", loaded "GUI_PV.joblib"),
   extend s (flat_map load_errors artifacts)).
Proof.
  unfold load_models.
  rewrite (bind_inl _ _ _ _ _ (load_model_run _ _)).
  rewrite (bind_inl _ _ _ _ _ (load_model_run _ _)).
  rewrite (bind_inl _ _ _ _ _ (load_model_run _ _)).
  unfold ret. rewrite !extend_extend. cbn [flat_map artifacts].
  rewrite app_nil_r. reflexivity.
Qed.

Lemma st_number_input_run label field s :
  st_number_input label field s = (inl (field (widgets s)), extend s [NumberInput label]).
Proof. reflexivity. Qed.

Lemma widgets_extend s l : widgets (extend s l) = widgets s.
Proof. reflexivity. Qed.

Lemma step1_run s :
  step1 s =
  (inl (widgets s),
   extend s [Markdown (StepTitle 1);
             NumberInput "OPC (%)"; NumberInput "CC (%)"; NumberInput "LP (%)";
             NumberInput "NC (%)"; NumberInput "GYP (%)"; NumberInput "S/B";
             NumberInput "W/B"; NumberInput "SP (%)"]).
Proof.
  unfold step1, st_markdown.
  rewrite (bind_inl _ _ _ _ _ (render_run _ _)).
  do 8 (rewrite (bind_inl _ _ _ _ _ (st_number_input_run _ _ _)), extend_extend, widgets_extend).
  unfold ret. cbn [app]. destruct (widgets s). reflexivity.
Qed.

Lemma step2_run v s :
  step2 v s =
  if py_ne (PyFloat (binder_sum v)) (PyInt 100)
  then (inr StopException,
        extend s [Markdown (StepTitle 2); Error (BinderNot100 (binder_sum v))])
  else (inl tt,
        extend s [Markdown (StepTitle 2); Success BinderCheckPassed; range_report v]).
Proof.
  unfold step2, st_markdown.
  rewrite (bind_inl _ _ _ _ _ (render_run _ _)).
  destruct (py_ne (PyFloat (binder_sum v)) (PyInt 100)).
  - unfold st_error.
    erewrite bind_inr;
      [ | erewrite (bind_inl _ _ _ _ _ (render_run _ _)); unfold st_stop; reflexivity ].
    rewrite extend_extend. reflexivity.
  - unfold st_success at 1.
    rewrite (bind_inl _ _ _ _ _ (render_run _ _)), extend_extend.
    unfold range_report.
    destruct (out_of_range v); unfold st_success, st_warning;
      rewrite render_run, extend_extend; reflexivity.
Qed.

Lemma step3_run model_SYS model_DYS model_PV v s :
  step3 model_SYS model_DYS model_PV v s =
  if gate model_SYS model_DYS model_PV
  then
    if predict_btn s
    then on_predict model_SYS model_DYS model_PV v
           (extend s [Markdown (StepTitle 3); Button "Predict rheological parameters"])
    else (inl tt, extend s [Markdown (StepTitle 3); Button "Predict rheological parameters"])
  else (inl tt, extend s [Markdown (StepTitle 3); Error ModelsNotLoaded]).
Proof.
  unfold step3, gate, bind, st_markdown, st_error, st_button, render, extend, ret.
  cbn. destruct (py_bool _); cbn.
  - destruct (predict_btn s); repeat rewrite <- app_assoc; reflexivity.
  - rewrite <- app_assoc. reflexivity.
Qed.

(** The script, statement by statement. *)
Lemma script_run s :
  let models := (loaded "GUI_SYS.joblib", loaded "GUI_DYS.joblib", loaded "GUI_PV.joblib") in
  let v := widgets s in
  let pre := flat_map load_errors artifacts ++ header_page in
  script s =
  if py_ne (PyFloat (binder_sum v)) (PyInt 100)
  then (inr StopException,
        extend s (pre ++ [Markdown (StepTitle 2); Error (BinderNot100 (binder_sum v))]))
  else
    bind (step3 (fst (fst models)) (snd (fst models)) (snd models) v)
         (fun _ => st_markdown Footer)
         (extend s (pre ++ [Markdown (StepTitle 2); Success BinderCheckPassed;
                            range_report v])).
Proof.
  cbv zeta. unfold script.
  rewrite (bind_inl _ _ _ _ _ (load_models_run _)).
  unfold st_markdown at 1 2, st_write.
  rewrite (bind_inl _ _ _ _ _ (render_run _ _)).
  rewrite (bind_inl _ _ _ _ _ (render_run _ _)).
  rewrite (bind_inl _ _ _ _ _ (render_run _ _)).
  rewrite (bind_inl _ _ _ _ _ (step1_run _)).
  rewrite !extend_extend. cbn [widgets extend].
  unfold bind at 1. rewrite step2_run.
  destruct (py_ne _ _).
  - rewrite !extend_extend. unfold header_page. repeat rewrite <- app_assoc. reflexivity.
  - rewrite !extend_extend. unfold header_page. cbn [fst snd].
    repeat rewrite <- app_assoc. reflexivity.
Qed.

(** ** One turn of the time loop *)

Lemma delta_refl s : delta s s [] [].
Proof. unfold delta. rewrite !app_nil_r. auto. Qed.

Lemma delta_trans s s' s'' l l' c c' :
  delta s s' l c -> delta s' s'' l' c' -> delta s s'' (l ++ l') (c ++ c').
Proof.
  unfold delta. intros (Hw & Hb & Hp & Hc) (Hw' & Hb' & Hp' & Hc').
  rewrite Hw', Hb', Hp', Hc', Hw, Hb, Hp, Hc, !app_assoc. auto.
Qed.

Lemma delta_extend s l : delta s (extend s l) l [].
Proof. unfold delta, extend. cbn. rewrite app_nil_r. auto. Qed.

(** The [try] body either throws an [Exception] or has called the three
    estimators in turn, on the same frame, and appended one row. *)
Lemma try_body_cases model_SYS model_DYS model_PV v results time_val label s :
  let X := input_data v time_val in
  let r := try_body model_SYS model_DYS model_PV v results time_val label s in
  exists c w',
    snd r = mkState (widgets s) (predict_btn s) (page s) w' (calls s ++ c)
    /\ Forall (fun nX => snd nX = X) c
    /\ ((exists e, fst r = inr (Exception e))
        \/ (exists oS oD oP w1 w2 ys yd yp,
              model_SYS = PyObject oS /\ model_DYS = PyObject oD /\ model_PV = PyObject oP
              /\ predict oS (world s) X = (w1, inl ys)
              /\ predict oD w1 X = (w2, inl yd)
              /\ predict oP w2 X = (w', inl yp)
              /\ fst r = inl (results ++ [mkRow label ys yd yp])
              /\ c = [("SYS", X); ("DYS", X); ("PV", X)])).
Proof.
  cbv zeta. unfold try_body, bind, call_predict, ret.
  destruct s as [wd b p w cs]. cbn [widgets predict_btn page world calls].
  destruct model_SYS as [ | oS].
  { exists [], w. cbn. rewrite app_nil_r. eauto 6. }
  destruct (predict oS w (input_data v time_val)) as [w1 [ys | e]] eqn:HS; cbn.
  2: { exists [("SYS", input_data v time_val)], w1. cbn. eauto 8. }
  destruct model_DYS as [ | oD].
  { exists [("SYS", input_data v time_val)], w1. cbn. eauto 8. }
  destruct (predict oD w1 (input_data v time_val)) as [w2 [yd | e]] eqn:HD; cbn.
  2: { exists [("SYS", input_data v time_val); ("DYS", input_data v time_val)], w2.
       cbn. rewrite <- app_assoc. cbn. eauto 8. }
  destruct model_PV as [ | oP].
  { exists [("SYS", input_data v time_val); ("DYS", input_data v time_val)], w2.
    cbn. rewrite <- app_assoc. cbn. eauto 8. }
  destruct (predict oP w2 (input_data v time_val)) as [w3 [yp | e]] eqn:HP; cbn.
  2: { exists [("SYS", input_data v time_val); ("DYS", input_data v time_val);
               ("PV", input_data v time_val)], w3.
       cbn. rewrite <- !app_assoc. cbn. eauto 8. }
  exists [("SYS", input_data v time_val); ("DYS", input_data v time_val);
          ("PV", input_data v time_val)], w3.
  cbn. rewrite <- !app_assoc. cbn.
  split; [ reflexivity | ]. split; [ auto | ].
  right. exists oS, oD, oP, w1, w2, ys, yd, yp. auto 10.
Qed.

(** The [try] body never stops the script. *)
Lemma try_body_no_stop model_SYS model_DYS model_PV v results time_val label s s' :
  try_body model_SYS model_DYS model_PV v results time_val label s <> (inr StopException, s').
Proof.
  intros H.
  destruct (try_body_cases model_SYS model_DYS model_PV v results time_val label s)
    as (c & w' & _ & _ & [(e & He) | (oS & oD & oP & w1 & w2 & ys & yd & yp & Hr)]).
  - rewrite H in He. discriminate.
  - destruct Hr as (_ & _ & _ & _ & _ & _ & Hr & _). rewrite H in Hr. discriminate.
Qed.

(** The frame of a [try] body run. *)
Lemma try_body_delta model_SYS model_DYS model_PV v results time_val label s r s' :
  try_body model_SYS model_DYS model_PV v results time_val label s = (r, s') ->
  exists c, delta s s' [] c /\ Forall (fun nX => snd nX = input_data v time_val) c.
Proof.
  intros H.
  destruct (try_body_cases model_SYS model_DYS model_PV v results time_val label s)
    as (c & w' & Hs & Hc & _).
  rewrite H in Hs. cbn in Hs. subst s'. exists c. split; [ | exact Hc ].
  unfold delta. cbn. rewrite app_nil_r. auto.
Qed.

(** One turn of the loop, by what its [try] body did. *)
Lemma time_step_ok model_SYS model_DYS model_PV v results time_val label s rows s' :
  try_body model_SYS model_DYS model_PV v results time_val label s = (inl rows, s') ->
  time_step model_SYS model_DYS model_PV v results (time_val, label) s = (inl rows, s').
Proof. intros H. unfold time_step, try_except. rewrite H. reflexivity. Qed.

Lemma time_step_failed model_SYS model_DYS model_PV v results time_val label s e s' :
  try_body model_SYS model_DYS model_PV v results time_val label s = (inr (Exception e), s') ->
  time_step model_SYS model_DYS model_PV v results (time_val, label) s =
  (inl results, extend s' [Error (PredictionFailed label e)]).
Proof. intros H. unfold time_step, try_except. rewrite H. reflexivity. Qed.

Lemma show_results_run results s :
  show_results results s = (inl tt, extend s (results_view results)).
Proof.
  destruct results as [ | r rs]; cbn.
  - rewrite extend_nil. reflexivity.
  - unfold bind, st_subheader, st_markdown, st_pyplot, render, extend. cbn.
    repeat rewrite <- app_assoc. reflexivity.
Qed.

(** ** Failures inside the time loop *)

(** C8: when the [try] body throws for both time values, [results] stays
    empty, neither the table nor a chart is rendered, and the press of
    the button adds exactly the two error messages to the page, and makes
    no further change to it. *)
Theorem both_times_fail model_SYS model_DYS model_PV v s e0 s0 e1 s1 :
  try_body model_SYS model_DYS model_PV v [] 0 "10 min" s = (inr (Exception e0), s0) ->
  try_body model_SYS model_DYS model_PV v [] 1 "30 min"
           (extend s0 [Error (PredictionFailed "10 min" e0)]) = (inr (Exception e1), s1) ->
  let s' := snd (on_predict model_SYS model_DYS model_PV v s) in
  fst (time_loop model_SYS model_DYS model_PV v s) = inl []
  /\ fst (on_predict model_SYS model_DYS model_PV v s) = inl tt
  /\ page s' = page s ++ [Error (PredictionFailed "10 min" e0);
                          Error (PredictionFailed "30 min" e1)]
  /\ existsb is_result_view (page s') = existsb is_result_view (page s).
Proof.
  intros H0 H1. cbv zeta.
  assert (Hloop : time_loop model_SYS model_DYS model_PV v s =
                  (inl [], extend s1 [Error (PredictionFailed "30 min" e1)])).
  { unfold time_loop. cbn [combine for_in].
    rewrite (bind_inl _ _ _ _ _ (time_step_failed _ _ _ _ _ _ _ _ _ _ H0)).
    rewrite (bind_inl _ _ _ _ _ (time_step_failed _ _ _ _ _ _ _ _ _ _ H1)).
    reflexivity. }
  assert (Hpage : page (extend s1 [Error (PredictionFailed "30 min" e1)]) =
                  page s ++ [Error (PredictionFailed "10 min" e0);
                             Error (PredictionFailed "30 min" e1)]).
  { destruct (try_body_delta _ _ _ _ _ _ _ _ _ _ H0) as (c0 & (_ & _ & Hp0 & _) & _).
    destruct (try_body_delta _ _ _ _ _ _ _ _ _ _ H1) as (c1 & (_ & _ & Hp1 & _) & _).
    cbn in Hp1 |- *. rewrite Hp1, Hp0, !app_nil_r, <- app_assoc. reflexivity. }
  unfold on_predict. rewrite (bind_inl _ _ _ _ _ Hloop), show_results_run.
  rewrite Hloop. cbn [fst snd results_view]. rewrite extend_nil, Hpage.
  repeat split. rewrite existsb_app. cbn. apply orb_false_r.
Qed.

(** C4: a failure for one time value costs that row only.  If the [try]
    body throws for exactly one of the two time values, the loop keeps
    the row of the other one, that row is what the table and the charts
    show, the press of the button completes, and what it renders is one
    error, naming the time label that failed, followed by the table and
    the charts; that error is the only one among them. *)
Theorem one_time_fails model_SYS model_DYS model_PV v s :
  (forall e0 s0 rows s1,
      try_body model_SYS model_DYS model_PV v [] 0 "10 min" s = (inr (Exception e0), s0) ->
      try_body model_SYS model_DYS model_PV v [] 1 "30 min"
               (extend s0 [Error (PredictionFailed "10 min" e0)]) = (inl rows, s1) ->
      exists row,
        row_label row = "30 min"
        /\ fst (time_loop model_SYS model_DYS model_PV v s) = inl [row]
        /\ fst (on_predict model_SYS model_DYS model_PV v s) = inl tt
        /\ page (snd (on_predict model_SYS model_DYS model_PV v s)) =
           page s ++ Error (PredictionFailed "10 min" e0) :: results_view [row]
        /\ filter is_error (Error (PredictionFailed "10 min" e0) :: results_view [row]) =
           [Error (PredictionFailed "10 min" e0)])
  /\ (forall rows s0 e1 s1,
      try_body model_SYS model_DYS model_PV v [] 0 "10 min" s = (inl rows, s0) ->
      try_body model_SYS model_DYS model_PV v rows 1 "30 min" s0 = (inr (Exception e1), s1) ->
      exists row,
        row_label row = "10 min"
        /\ fst (time_loop model_SYS model_DYS model_PV v s) = inl [row]
        /\ fst (on_predict model_SYS model_DYS model_PV v s) = inl tt
        /\ page (snd (on_predict model_SYS model_DYS model_PV v s)) =
           page s ++ Error (PredictionFailed "30 min" e1) :: results_view [row]
        /\ filter is_error (Error (PredictionFailed "30 min" e1) :: results_view [row]) =
           [Error (PredictionFailed "30 min" e1)]).
Proof.
  split.
  - intros e0 s0 rows s1 H0 H1.
    destruct (try_body_cases model_SYS model_DYS model_PV v [] 1 "30 min"
                (extend s0 [Error (PredictionFailed "10 min" e0)]))
      as (c & w' & _ & _ & [(e & He) | (oS & oD & oP & w1 & w2 & ys & yd & yp & Hr)]).
    { rewrite H1 in He. discriminate. }
    destruct Hr as (_ & _ & _ & _ & _ & _ & Hr & _).
    rewrite H1 in Hr. cbn in Hr. injection Hr as ->.
    exists (mkRow "30 min" ys yd yp).
    assert (Hloop : time_loop model_SYS model_DYS model_PV v s =
                    (inl [mkRow "30 min" ys yd yp], s1)).
    { unfold time_loop. cbn [combine for_in].
      rewrite (bind_inl _ _ _ _ _ (time_step_failed _ _ _ _ _ _ _ _ _ _ H0)).
      rewrite (bind_inl _ _ _ _ _ (time_step_ok _ _ _ _ _ _ _ _ _ _ H1)).
      reflexivity. }
    destruct (try_body_delta _ _ _ _ _ _ _ _ _ _ H0) as (c0 & (_ & _ & Hp0 & _) & _).
    destruct (try_body_delta _ _ _ _ _ _ _ _ _ _ H1) as (c1 & (_ & _ & Hp1 & _) & _).
    unfold on_predict. rewrite (bind_inl _ _ _ _ _ Hloop), show_results_run, Hloop.
    repeat split. cbn [snd extend page].
    cbn in Hp1. rewrite Hp1, Hp0, !app_nil_r, <- app_assoc. reflexivity.
  - intros rows s0 e1 s1 H0 H1.
    destruct (try_body_cases model_SYS model_DYS model_PV v [] 0 "10 min" s)
      as (c & w' & _ & _ & [(e & He) | (oS & oD & oP & w1 & w2 & ys & yd & yp & Hr)]).
    { rewrite H0 in He. discriminate. }
    destruct Hr as (_ & _ & _ & _ & _ & _ & Hr & _).
    rewrite H0 in Hr. cbn in Hr. injection Hr as ->.
    exists (mkRow "10 min" ys yd yp).
    assert (Hloop : time_loop model_SYS model_DYS model_PV v s =
                    (inl [mkRow "10 min" ys yd yp],
                     extend s1 [Error (PredictionFailed "30 min" e1)])).
    { unfold time_loop. cbn [combine for_in].
      rewrite (bind_inl _ _ _ _ _ (time_step_ok _ _ _ _ _ _ _ _ _ _ H0)).
      rewrite (bind_inl _ _ _ _ _ (time_step_failed _ _ _ _ _ _ _ _ _ _ H1)).
      reflexivity. }
    destruct (try_body_delta _ _ _ _ _ _ _ _ _ _ H0) as (c0 & (_ & _ & Hp0 & _) & _).
    destruct (try_body_delta _ _ _ _ _ _ _ _ _ _ H1) as (c1 & (_ & _ & Hp1 & _) & _).
    unfold on_predict. rewrite (bind_inl _ _ _ _ _ Hloop), show_results_run, Hloop.
    repeat split. cbn [snd extend page].
    rewrite Hp1, Hp0, !app_nil_r, <- app_assoc. reflexivity.
Qed.

(** ** The two rows *)

(** C2: with estimators that answer, one press of the button yields
    exactly two rows, "10 min" (time value 0) first and "30 min" (time
    value 1) second; each row holds what the SYS, DYS and PV estimators
    returned on that row's frame.  Both frames carry the eight mix fields
    in the order OPC, CC, LP, NC, GYP, S/B, W/B, SP followed by the time
    value, so they differ in the last cell only. *)
Theorem two_rows (oS oD oP : Estimator W) v s :
  never_throws oS -> never_throws oD -> never_throws oP ->
  let X0 := input_data v 0 in
  let X1 := input_data v 1 in
  let fields := [PyFloat (w_opc v); PyFloat (w_cc v); PyFloat (w_lp v); PyFloat (w_nc v);
                 PyFloat (w_gyp v); PyFloat (w_sb v); PyFloat (w_wb v); PyFloat (w_sp v)] in
  (exists w1 w2 w3 w4 w5 w6 sys0 dys0 pv0 sys1 dys1 pv1,
      predict oS (world s) X0 = (w1, inl sys0)
      /\ predict oD w1 X0 = (w2, inl dys0)
      /\ predict oP w2 X0 = (w3, inl pv0)
      /\ predict oS w3 X1 = (w4, inl sys1)
      /\ predict oD w4 X1 = (w5, inl dys1)
      /\ predict oP w5 X1 = (w6, inl pv1)
      /\ time_loop (PyObject oS) (PyObject oD) (PyObject oP) v s =
         (inl [mkRow "10 min" sys0 dys0 pv0; mkRow "30 min" sys1 dys1 pv1],
          mkState (widgets s) (predict_btn s) (page s) w6
                  (calls s ++ [("SYS", X0); ("DYS", X0); ("PV", X0);
                               ("SYS", X1); ("DYS", X1); ("PV", X1)]))
      /\ fst (on_predict (PyObject oS) (PyObject oD) (PyObject oP) v s) = inl tt
      /\ page (snd (on_predict (PyObject oS) (PyObject oD) (PyObject oP) v s)) =
         page s ++ results_view [mkRow "10 min" sys0 dys0 pv0; mkRow "30 min" sys1 dys1 pv1])
  /\ df_rows X0 = [fields ++ [PyInt 0]]
  /\ df_rows X1 = [fields ++ [PyInt 1]]
  /\ df_columns X0 = feature_names
  /\ df_columns X1 = feature_names
  /\ List.length (input_values v 0) = 9
  /\ List.length (input_values v 1) = 9.
Proof.
  intros HS HD HP. cbv zeta. split; [ | repeat split ].
  destruct (HS (world s) (input_data v 0)) as (w1 & sys0 & E1).
  destruct (HD w1 (input_data v 0)) as (w2 & dys0 & E2).
  destruct (HP w2 (input_data v 0)) as (w3 & pv0 & E3).
  destruct (HS w3 (input_data v 1)) as (w4 & sys1 & E4).
  destruct (HD w4 (input_data v 1)) as (w5 & dys1 & E5).
  destruct (HP w5 (input_data v 1)) as (w6 & pv1 & E6).
  exists w1, w2, w3, w4, w5, w6, sys0, dys0, pv0, sys1, dys1, pv1.
  assert (Hloop : time_loop (PyObject oS) (PyObject oD) (PyObject oP) v s =
         (inl [mkRow "10 min" sys0 dys0 pv0; mkRow "30 min" sys1 dys1 pv1],
          mkState (widgets s) (predict_btn s) (page s) w6
                  (calls s ++ [("SYS", input_data v 0); ("DYS", input_data v 0);
                               ("PV", input_data v 0); ("SYS", input_data v 1);
                               ("DYS", input_data v 1); ("PV", input_data v 1)]))).
  { unfold time_loop. cbn [combine for_in].
    unfold bind at 1, time_step at 1, try_except, try_body, bind, call_predict, ret.
    cbn [world widgets predict_btn page calls].
    rewrite E1. cbn [world widgets predict_btn page calls]. rewrite E2.
    cbn [world widgets predict_btn page calls]. rewrite E3.
    cbn [world widgets predict_btn page calls app].
    unfold time_step, try_except, try_body, bind, call_predict, ret.
    cbn [world widgets predict_btn page calls].
    rewrite E4. cbn [world widgets predict_btn page calls]. rewrite E5.
    cbn [world widgets predict_btn page calls]. rewrite E6.
    cbn [world widgets predict_btn page calls app].
    repeat rewrite <- app_assoc. reflexivity. }
  repeat (split; [ assumption | ]).
  unfold on_predict. rewrite (bind_inl _ _ _ _ _ Hloop), show_results_run.
  split; reflexivity.
Qed.

(** ** Two presses of the button *)

Lemma agree_ret {A : Type} (a : A) : agree (ret a).
Proof. intros s1 s2. exists [], []. cbn. auto using delta_refl. Qed.

Lemma agree_render e : agree (render e).
Proof.
  intros s1 s2. exists [e], []. rewrite !render_run. cbn [fst snd].
  auto using delta_extend.
Qed.

Lemma agree_bind {A B : Type} (m : M W A) (k : A -> M W B) :
  agree m -> (forall a, agree (k a)) -> agree (bind m k).
Proof.
  intros Hm Hk s1 s2. unfold bind.
  destruct (Hm s1 s2) as (l & c & Hf & H1 & H2).
  destruct (m s1) as [[a | t] s1'], (m s2) as [[a' | t'] s2']; cbn [fst snd] in Hf, H1, H2;
    try discriminate.
  - injection Hf as <-.
    destruct (Hk a s1' s2') as (l' & c' & Hf' & H1' & H2').
    exists (l ++ l'), (c ++ c'). split; [ exact Hf' | ].
    split; eapply delta_trans; eassumption.
  - injection Hf as <-. exists l, c. cbn [fst snd]. auto.
Qed.

Lemma agree_try_except {A : Type} (body : M W A) (handler : string -> M W A) :
  agree body -> (forall e, agree (handler e)) -> agree (try_except body handler).
Proof.
  intros Hm Hk s1 s2. unfold try_except.
  destruct (Hm s1 s2) as (l & c & Hf & H1 & H2).
  destruct (body s1) as [[a | [e | ]] s1'], (body s2) as [[a' | [e' | ]] s2'];
    cbn [fst snd] in Hf, H1, H2; try discriminate.
  - exists l, c. cbn [fst snd]. auto.
  - injection Hf as <-.
    destruct (Hk e s1' s2') as (l' & c' & Hf' & H1' & H2').
    exists (l ++ l'), (c ++ c'). split; [ exact Hf' | ].
    split; eapply delta_trans; eassumption.
  - exists l, c. cbn [fst snd]. auto.
Qed.

Lemma agree_call_predict name model X :
  deterministic model -> agree (call_predict name model X).
Proof.
  intros Hd s1 s2. unfold call_predict. destruct model as [ | o].
  - exists [], []. cbn [fst snd]. auto using delta_refl.
  - cbn in Hd. specialize (Hd (world s1) (world s2) X).
    destruct (predict o (world s1) X) as [w1 r1], (predict o (world s2) X) as [w2 r2].
    cbn [snd] in Hd. subst r2.
    exists [], [(name, X)].
    destruct r1 as [y | e]; cbn [fst snd]; unfold delta; cbn [widgets predict_btn page calls];
      rewrite !app_nil_r; auto 10.
Qed.

Lemma agree_for_in {A B : Type} (l : list B) (body : A -> B -> M W A) :
  (forall acc x, agree (body acc x)) -> forall acc, agree (for_in l body acc).
Proof.
  intros Hb. induction l as [ | x l IH]; intros acc; cbn [for_in].
  - apply agree_ret.
  - apply agree_bind; auto.
Qed.

Lemma agree_time_loop model_SYS model_DYS model_PV v :
  deterministic model_SYS -> deterministic model_DYS -> deterministic model_PV ->
  agree (time_loop model_SYS model_DYS model_PV v).
Proof.
  intros HS HD HP. unfold time_loop. apply agree_for_in.
  intros results [time_val label]. unfold time_step, try_body.
  apply agree_try_except.
  - repeat (apply agree_bind; [ apply agree_call_predict; assumption | intros ]).
    apply agree_ret.
  - intros e. apply agree_bind; [ apply agree_render | intros; apply agree_ret ].
Qed.

Lemma agree_show_results results : agree (show_results results).
Proof.
  destruct results; unfold show_results.
  - apply agree_ret.
  - repeat (apply agree_bind; [ apply agree_render | intros ]). apply agree_render.
Qed.

(** C7: with estimators whose answers depend on the frame alone, two
    presses of the button with the same eight values, from any two runs,
    hand the same frames to the same estimators in the same order, build
    the same list of rows and render the same elements; neither press
    changes the widget values of its run. *)
Theorem predict_idempotent model_SYS model_DYS model_PV v s1 s2 :
  deterministic model_SYS -> deterministic model_DYS -> deterministic model_PV ->
  fst (time_loop model_SYS model_DYS model_PV v s1) =
  fst (time_loop model_SYS model_DYS model_PV v s2)
  /\ fst (on_predict model_SYS model_DYS model_PV v s1) =
     fst (on_predict model_SYS model_DYS model_PV v s2)
  /\ exists rendered called,
      page (snd (on_predict model_SYS model_DYS model_PV v s1)) = page s1 ++ rendered
      /\ page (snd (on_predict model_SYS model_DYS model_PV v s2)) = page s2 ++ rendered
      /\ calls (snd (on_predict model_SYS model_DYS model_PV v s1)) = calls s1 ++ called
      /\ calls (snd (on_predict model_SYS model_DYS model_PV v s2)) = calls s2 ++ called
      /\ widgets (snd (on_predict model_SYS model_DYS model_PV v s1)) = widgets s1
      /\ widgets (snd (on_predict model_SYS model_DYS model_PV v s2)) = widgets s2.
Proof.
  intros HS HD HP.
  pose proof (agree_time_loop model_SYS model_DYS model_PV v HS HD HP) as Hloop.
  assert (Hall : agree (on_predict model_SYS model_DYS model_PV v)).
  { unfold on_predict. apply agree_bind; [ exact Hloop | apply agree_show_results ]. }
  destruct (Hloop s1 s2) as (_ & _ & Hrows & _).
  destruct (Hall s1 s2) as (l & c & Hf & (Hw1 & _ & Hp1 & Hc1) & (Hw2 & _ & Hp2 & Hc2)).
  split; [ exact Hrows | ]. split; [ exact Hf | ].
  exists l, c. auto 10.
Qed.

(** ** Comparing binary64 numbers *)

Lemma SFcompare_swap (x y : spec_float) :
  SFcompare y x = option_map CompOpp (SFcompare x y).
Proof.
  destruct x as [sx | sx | | sx mx ex], y as [sy | sy | | sy my ey]; cbn;
    try reflexivity;
    try (destruct sx; reflexivity);
    try (destruct sy; reflexivity);
    try (destruct sx, sy; reflexivity).
  destruct sx, sy; cbn; try reflexivity;
    rewrite (Z.compare_antisym ex ey);
    destruct (ex ?= ey)%Z; cbn; try reflexivity; f_equal.
  - f_equal. apply ZC4.
  - apply ZC4.
Qed.

(** Numbers that compare equal compare alike with any third one. *)
Lemma SFcompare_Eq (x y : spec_float) :
  SFcompare x y = Some Eq -> forall z, SFcompare x z = SFcompare y z.
Proof.
  intros H z.
  destruct x as [sx | sx | | sx mx ex], y as [sy | sy | | sy my ey]; cbn in H;
    try discriminate; try reflexivity;
    try (destruct sx; discriminate); try (destruct sy; discriminate).
  - destruct sx, sy; try discriminate; reflexivity.
  - assert (sx = sy /\ ex = ey /\ mx = my) as (-> & -> & ->); [ | reflexivity ].
    destruct sx, sy; try discriminate;
      destruct (ex ?= ey)%Z eqn:E; try discriminate;
      apply Z.compare_eq in E; subst;
      repeat split; apply Pcompare_Eq_eq.
    + injection H as H. apply (f_equal CompOpp) in H.
      rewrite CompOpp_involutive in H. exact H.
    + injection H as H. exact H.
Qed.

Lemma ltb_leb_false (x y : float) :
  (x <? y)%float = true -> (y <=? x)%float = false.
Proof.
  rewrite ltb_spec, leb_spec. unfold SFltb, SFleb.
  rewrite (SFcompare_swap (Prim2SF x)).
  destruct (SFcompare (Prim2SF x) (Prim2SF y)) as [[ | | ] | ]; cbn; congruence.
Qed.

Lemma eqb_leb_l (x y z : float) :
  (x =? y)%float = true -> (x <=? z)%float = (y <=? z)%float.
Proof.
  rewrite eqb_spec, !leb_spec. unfold SFeqb, SFleb. intros H.
  rewrite (SFcompare_Eq (Prim2SF x) (Prim2SF y)); [ reflexivity | ].
  destruct (SFcompare (Prim2SF x) (Prim2SF y)) as [[ | | ] | ]; congruence.
Qed.

Lemma eqb_leb_r (x y z : float) :
  (x =? y)%float = true -> (z <=? x)%float = (z <=? y)%float.
Proof.
  rewrite eqb_spec, !leb_spec. unfold SFeqb, SFleb. intros H.
  rewrite (SFcompare_swap (Prim2SF x) (Prim2SF z)), (SFcompare_swap (Prim2SF y) (Prim2SF z)).
  rewrite (SFcompare_Eq (Prim2SF x) (Prim2SF y)); [ reflexivity | ].
  destruct (SFcompare (Prim2SF x) (Prim2SF y)) as [[ | | ] | ]; congruence.
Qed.

Lemma eqb_leb (x y : float) :
  (x =? y)%float = true -> (x <=? y)%float = true /\ (y <=? x)%float = true.
Proof.
  rewrite eqb_spec, !leb_spec. unfold SFeqb, SFleb.
  rewrite (SFcompare_swap (Prim2SF x) (Prim2SF y)).
  destruct (SFcompare (Prim2SF x) (Prim2SF y)) as [[ | | ] | ]; cbn; auto; discriminate.
Qed.

Lemma py_lt_le_false (a b : PyNum) : py_lt a b = true -> py_le b a = false.
Proof.
  destruct a as [x | f], b as [y | g]; cbn; try apply ltb_leb_false.
  intros H. apply Z.ltb_lt in H. apply Z.leb_gt. exact H.
Qed.

(** A value strictly outside the bounds is not within them. *)
Lemma within_outside low high val :
  py_lt val low = true \/ py_lt high val = true -> within low high val = false.
Proof.
  unfold within. intros [H | H]; apply py_lt_le_false in H; rewrite H.
  - reflexivity.
  - apply andb_false_r.
Qed.

(** A float equal to a bound is within the bounds. *)
Lemma within_at_bound low high (f : float) :
  (to_float low <=? to_float high)%float = true ->
  py_eq (PyFloat f) low = true \/ py_eq (PyFloat f) high = true ->
  within low high (PyFloat f) = true.
Proof.
  intros Hb H. unfold within.
  assert (El : py_le low (PyFloat f) = (to_float low <=? f)%float) by (destruct low; reflexivity).
  assert (Eh : py_le (PyFloat f) high = (f <=? to_float high)%float) by (destruct high; reflexivity).
  assert (Hl : py_eq (PyFloat f) low = (f =? to_float low)%float) by (destruct low; reflexivity).
  assert (Hh : py_eq (PyFloat f) high = (f =? to_float high)%float) by (destruct high; reflexivity).
  rewrite El, Eh. rewrite Hl, Hh in H. destruct H as [H | H].
  - rewrite (eqb_leb_l _ _ _ H), Hb. destruct (eqb_leb _ _ H) as [_ ->]. reflexivity.
  - rewrite (eqb_leb_r _ _ _ H), Hb. destruct (eqb_leb _ _ H) as [-> _]. reflexivity.
Qed.

(** ** The range check *)

Lemma fold_left_append {A B : Type} (p : B -> bool) (f : B -> A) (l : list B) (acc : list A) :
  fold_left (fun acc x => if p x then acc ++ [f x] else acc) l acc =
  acc ++ map f (filter p l).
Proof.
  revert acc. induction l as [ | x l IH]; intros acc; cbn.
  - rewrite app_nil_r. reflexivity.
  - rewrite IH. destruct (p x); cbn.
    + rewrite <- app_assoc. reflexivity.
    + reflexivity.
Qed.

(** The loop of lines 157-160 keeps, in dict order, the fields that fail
    the test. *)
Lemma out_of_range_filter v :
  out_of_range v = map entry_of (filter violates (ranges v)).
Proof.
  unfold out_of_range.
  rewrite <- (app_nil_l (map entry_of (filter violates (ranges v)))).
  rewrite <- fold_left_append. reflexivity.
Qed.

Lemma ranges_keys v :
  map fst (ranges v) =
  ["OPC (%)"; "CC (%)"; "LP (%)"; "NC (%)"; "GYP (%)"; "S/B"; "W/B"; "SP (%)"].
Proof. reflexivity. Qed.

Lemma ranges_keys_NoDup v : NoDup (map fst (ranges v)).
Proof.
  rewrite ranges_keys.
  repeat (constructor; [ cbn; intuition discriminate | ]). constructor.
Qed.

(** Every field of [ranges] holds a float, between bounds in order. *)
Lemma ranges_bounds v param low high val :
  In (param, (low, high, val)) (ranges v) ->
  (to_float low <=? to_float high)%float = true /\ exists f, val = PyFloat f.
Proof.
  unfold ranges. cbn [In].
  intros H. repeat (destruct H as [H | H]; [ injection H as <- <- <- <-; split; [ reflexivity | eauto ] | ]).
  contradiction.
Qed.

Lemma entries_absent (k : string) (l : list (string * (PyNum * PyNum * PyNum))) :
  ~ In k (map fst l) ->
  filter (fun e => String.eqb (v_param e) k) (map entry_of (filter violates l)) = [].
Proof.
  induction l as [ | [k' [[lo hi] x]] l IH]; cbn; intros Hk.
  - reflexivity.
  - destruct (negb (within lo hi x)); cbn.
    + destruct (String.eqb_spec k' k) as [-> | _]; [ exfalso; auto | auto ].
    + auto.
Qed.

(** Keys are unique, so a field has one entry when it fails the test and
    none otherwise. *)
Lemma entries_present (k : string) lo hi x (l : list (string * (PyNum * PyNum * PyNum))) :
  NoDup (map fst l) ->
  In (k, (lo, hi, x)) l ->
  filter (fun e => String.eqb (v_param e) k) (map entry_of (filter violates l)) =
  if within lo hi x then [] else [mkViolation k x lo hi].
Proof.
  induction l as [ | [k' [[lo' hi'] x']] l IH]; cbn [map fst In]; intros Hnd Hin.
  - contradiction.
  - inversion Hnd as [ | ? ? Hk Hnd']. subst.
    destruct Hin as [E | Hin].
    + injection E as -> -> -> ->. cbn.
      destruct (within lo hi x); cbn.
      * apply entries_absent. exact Hk.
      * rewrite String.eqb_refl, (entries_absent _ _ Hk). reflexivity.
    + assert (k' <> k).
      { intros ->. apply Hk. change k with (fst (k, (lo, hi, x))). apply in_map. exact Hin. }
      cbn. destruct (negb (within lo' hi' x')); cbn.
      * destruct (String.eqb_spec k' k); [ contradiction | auto ].
      * auto.
Qed.

Lemma entries_for_spec v param low high val :
  In (param, (low, high, val)) (ranges v) ->
  entries_for param v = if within low high val then [] else [mkViolation param val low high].
Proof.
  intros H. unfold entries_for. rewrite out_of_range_filter.
  apply entries_present; [ apply ranges_keys_NoDup | exact H ].
Qed.

Lemma out_of_range_nil v :
  out_of_range v = [] <->
  forall param low high val, In (param, (low, high, val)) (ranges v) -> within low high val = true.
Proof.
  rewrite out_of_range_filter. split.
  - intros H param low high val Hin.
    destruct (within low high val) eqn:E; [ reflexivity | ].
    assert (Hv : In (entry_of (param, (low, high, val)))
                    (map entry_of (filter violates (ranges v)))).
    { apply in_map, filter_In. split; [ exact Hin | cbn; rewrite E; reflexivity ]. }
    rewrite H in Hv. contradiction.
  - intros H. destruct (filter violates (ranges v)) as [ | [k [[lo hi] x]] l] eqn:E;
      [ reflexivity | ].
    assert (Hin : In (k, (lo, hi, x)) (filter violates (ranges v))) by (rewrite E; left; reflexivity).
    apply filter_In in Hin. destruct Hin as [Hin Hv]. cbn in Hv.
    rewrite (H _ _ _ _ Hin) in Hv. discriminate.
Qed.

(** ** What a press of the button can do *)

Lemma forallb_weaken {A : Type} (p q : A -> bool) (l : list A) :
  (forall x, p x = true -> q x = true) -> forallb p l = true -> forallb q l = true.
Proof.
  intros H. rewrite !forallb_forall. auto.
Qed.

Lemma prediction_offer_output e : is_prediction_offer e = true -> is_prediction_output e = true.
Proof. destruct e as [[ | | | ] | | | [ | | | | | ] | | | | ]; cbn; auto. Qed.

Lemma time_step_delta model_SYS model_DYS model_PV v results time_val label s :
  exists rows s' l c,
    time_step model_SYS model_DYS model_PV v results (time_val, label) s = (inl rows, s')
    /\ delta s s' l c
    /\ forallb is_prediction_offer l = true
    /\ Forall (fun nX => snd nX = input_data v time_val) c.
Proof.
  destruct (try_body model_SYS model_DYS model_PV v results time_val label s)
    as [[rows | [e | ]] s1] eqn:H.
  - destruct (try_body_delta _ _ _ _ _ _ _ _ _ _ H) as (c & Hd & Hc).
    exists rows, s1, [], c. rewrite (time_step_ok _ _ _ _ _ _ _ _ _ _ H). auto.
  - destruct (try_body_delta _ _ _ _ _ _ _ _ _ _ H) as (c & Hd & Hc).
    exists results, (extend s1 [Error (PredictionFailed label e)]),
      [Error (PredictionFailed label e)], c.
    rewrite (time_step_failed _ _ _ _ _ _ _ _ _ _ H).
    pose proof (delta_trans _ _ _ _ _ _ _ Hd
                  (delta_extend s1 [Error (PredictionFailed label e)])) as D.
    rewrite app_nil_r in D. cbn [app] in D. auto.
  - exfalso. exact (try_body_no_stop _ _ _ _ _ _ _ _ _ H).
Qed.

Lemma forallb_results_view results :
  forallb is_prediction_offer (results_view results) = true.
Proof. destruct results; reflexivity. Qed.

(** A press of the button always completes; it renders prediction output
    only, and every frame it hands to an estimator is one of the two
    frames built from the values it was given. *)
Lemma on_predict_delta model_SYS model_DYS model_PV v s :
  exists s' l c,
    on_predict model_SYS model_DYS model_PV v s = (inl tt, s')
    /\ delta s s' l c
    /\ forallb is_prediction_offer l = true
    /\ Forall (fun nX => snd nX = input_data v 0 \/ snd nX = input_data v 1) c.
Proof.
  destruct (time_step_delta model_SYS model_DYS model_PV v [] 0 "10 min" s)
    as (rows0 & s0 & l0 & c0 & E0 & D0 & P0 & F0).
  destruct (time_step_delta model_SYS model_DYS model_PV v rows0 1 "30 min" s0)
    as (rows1 & s1 & l1 & c1 & E1 & D1 & P1 & F1).
  exists (extend s1 (results_view rows1)), ((l0 ++ l1) ++ results_view rows1), ((c0 ++ c1) ++ []).
  unfold on_predict, time_loop. cbn [combine for_in].
  unfold bind at 1. unfold bind at 1. rewrite E0.
  unfold bind at 1. rewrite E1. unfold ret. rewrite show_results_run.
  split; [ reflexivity | ]. split; [ | split ].
  - apply (delta_trans _ _ _ _ _ _ _ (delta_trans _ _ _ _ _ _ _ D0 D1) (delta_extend _ _)).
  - rewrite !forallb_app, P0, P1, forallb_results_view. reflexivity.
  - rewrite app_nil_r. apply Forall_app. split.
    + eapply Forall_impl; [ | exact F0 ]. cbn. auto.
    + eapply Forall_impl; [ | exact F1 ]. cbn. auto.
Qed.

Lemma delta_eq s s' l l' c c' :
  delta s s' l c -> l = l' -> c = c' -> delta s s' l' c'.
Proof. intros H <- <-. exact H. Qed.

(** The whole script, by the outcome of the binder test and of the gate. *)
Lemma script_outcome s :
  let v := widgets s in
  let pre := flat_map load_errors artifacts ++ header_page in
  if py_ne (PyFloat (binder_sum v)) (PyInt 100)
  then script s =
       (inr StopException,
        extend s (pre ++ [Markdown (StepTitle 2); Error (BinderNot100 (binder_sum v))]))
  else
    exists s' l c,
      script s = (inl tt, s')
      /\ delta s s' (pre ++ [Markdown (StepTitle 2); Success BinderCheckPassed;
                             range_report v; Markdown (StepTitle 3)]
                         ++ l ++ [Markdown Footer]) c
      /\ forallb is_prediction_output l = true
      /\ Forall (fun nX => snd nX = input_data v 0 \/ snd nX = input_data v 1) c
      /\ if gate (loaded "GUI_SYS.joblib") (loaded "GUI_DYS.joblib") (loaded "GUI_PV.joblib")
         then exists l', l = Button "Predict rheological parameters" :: l'
                         /\ forallb is_prediction_offer l' = true
                         /\ (predict_btn s = false -> l' = [] /\ c = [] /\ world s' = world s)
         else l = [Error ModelsNotLoaded] /\ c = [] /\ world s' = world s.
Proof.
  cbv zeta. pose proof (script_run s) as R. cbv zeta in R. rewrite R. clear R.
  destruct (py_ne (PyFloat (binder_sum (widgets s))) (PyInt 100)); [ reflexivity | ].
  set (pre := flat_map load_errors artifacts ++ header_page).
  set (L1 := pre ++ [Markdown (StepTitle 2); Success BinderCheckPassed; range_report (widgets s)]).
  unfold bind at 1. rewrite step3_run. cbn [fst snd].
  assert (Hpre : forall l,
             (L1 ++ [Markdown (StepTitle 3)]) ++ l =
             pre ++ [Markdown (StepTitle 2); Success BinderCheckPassed;
                     range_report (widgets s); Markdown (StepTitle 3)] ++ l).
  { intros l. unfold L1. repeat rewrite <- app_assoc. reflexivity. }
  destruct (gate _ _ _).
  - change (predict_btn (extend s L1)) with (predict_btn s).
    destruct (predict_btn s) eqn:Hb.
    + destruct (on_predict_delta (loaded "GUI_SYS.joblib") (loaded "GUI_DYS.joblib")
                  (loaded "GUI_PV.joblib") (widgets s)
                  (extend (extend s L1)
                     [Markdown (StepTitle 3); Button "Predict rheological parameters"]))
        as (s' & l & c & E & D & P & F).
      rewrite E. unfold st_markdown. rewrite render_run.
      exists (extend s' [Markdown Footer]), (Button "Predict rheological parameters" :: l), c.
      split; [ reflexivity | ].
      split; [ | split; [ exact (forallb_weaken _ _ _ prediction_offer_output P)
                        | split; [ exact F | ] ] ].
      * eapply delta_eq.
        -- exact (delta_trans _ _ _ _ _ _ _
                    (delta_trans _ _ _ _ _ _ _
                       (delta_trans _ _ _ _ _ _ _ (delta_extend s L1) (delta_extend _ _)) D)
                    (delta_extend s' [Markdown Footer])).
        -- rewrite <- Hpre. repeat rewrite <- app_assoc. reflexivity.
        -- rewrite app_nil_r. reflexivity.
      * exists l. split; [ reflexivity | split; [ exact P | discriminate ] ].
    + unfold st_markdown. rewrite render_run.
      exists (extend (extend (extend s L1)
                        [Markdown (StepTitle 3); Button "Predict rheological parameters"])
                     [Markdown Footer]), [Button "Predict rheological parameters"], [].
      split; [ reflexivity | ]. split; [ | split; [ reflexivity | split; [ constructor | ] ] ].
      * eapply delta_eq.
        -- exact (delta_trans _ _ _ _ _ _ _
                    (delta_trans _ _ _ _ _ _ _ (delta_extend s L1) (delta_extend _ _))
                    (delta_extend _ [Markdown Footer])).
        -- rewrite <- Hpre. repeat rewrite <- app_assoc. reflexivity.
        -- reflexivity.
      * exists []. auto.
  - unfold st_markdown. rewrite render_run.
    exists (extend (extend (extend s L1) [Markdown (StepTitle 3); Error ModelsNotLoaded])
                   [Markdown Footer]), [Error ModelsNotLoaded], [].
    split; [ reflexivity | ]. split; [ | split; [ reflexivity | split; [ constructor | auto ] ] ].
    eapply delta_eq.
    + exact (delta_trans _ _ _ _ _ _ _
               (delta_trans _ _ _ _ _ _ _ (delta_extend s L1) (delta_extend _ _))
               (delta_extend _ [Markdown Footer])).
    + rewrite <- Hpre. repeat rewrite <- app_assoc. reflexivity.
    + reflexivity.
Qed.

(** ** The binder-sum test *)

Lemma py_ne_binder v :
  py_ne (PyFloat (binder_sum v)) (PyInt 100) = negb (binder_sum v =? 100)%float.
Proof. reflexivity. Qed.

Lemma delta_start inp clicked w s' l c :
  delta (start inp clicked w) s' l c ->
  widgets s' = inp /\ page s' = l /\ calls s' = c.
Proof. intros (Hw & _ & Hp & Hc). cbn in Hw, Hp, Hc. auto. Qed.

(** Before Step 2 the page holds load errors and the header only. *)
Lemma pre_plain :
  forallb (fun e => negb (is_range_output e || is_prediction_output e || is_binder_passed e))
          (flat_map load_errors artifacts ++ header_page) = true.
Proof.
  unfold artifacts, flat_map, load_errors.
  destruct (joblib_load "GUI_SYS.joblib"), (joblib_load "GUI_DYS.joblib"),
    (joblib_load "GUI_PV.joblib"); reflexivity.
Qed.

Lemma existsb_forallb_negb {A : Type} (p : A -> bool) (l : list A) :
  forallb (fun x => negb (p x)) l = true -> existsb p l = false.
Proof.
  induction l as [ | x l IH]; cbn; [ reflexivity | ].
  intros H. apply andb_true_iff in H. destruct H as [Hx Hl].
  apply negb_true_iff in Hx. rewrite Hx, (IH Hl). reflexivity.
Qed.


(** C1: the binder test passes exactly when the binary64 sum
    [opc + cc + lp + gyp] equals 100.  When it does, the check-passed
    message is rendered and the run completes.  When it does not, the run
    is stopped right after the error message: the page ends with that
    message, shows neither range-check output nor anything of Step 3, no
    estimator has been called and the estimators' state is untouched. *)
Theorem binder_sum_gate inp clicked w :
  let r := script (start inp clicked w) in
  if (binder_sum inp =? 100)%float
  then fst r = inl tt
       /\ existsb is_binder_passed (page (snd r)) = true
  else fst r = inr StopException
       /\ page (snd r) =
          (flat_map load_errors artifacts ++ header_page)
            ++ [Markdown (StepTitle 2); Error (BinderNot100 (binder_sum inp))]
       /\ existsb is_binder_passed (page (snd r)) = false
       /\ existsb is_range_output (page (snd r)) = false
       /\ existsb is_prediction_output (page (snd r)) = false
       /\ calls (snd r) = []
       /\ world (snd r) = w.
Proof.
  cbv zeta. pose proof (script_outcome (start inp clicked w)) as H. cbv zeta in H.
  change (widgets (start inp clicked w)) with inp in H.
  rewrite py_ne_binder in H.
  destruct (binder_sum inp =? 100)%float; cbn [negb] in H.
  - destruct H as (s' & l & c & E & D & _). rewrite E. cbn [fst snd].
    split; [ reflexivity | ].
    apply delta_start in D. destruct D as (_ & -> & _).
    rewrite existsb_app. apply orb_true_iff. right. reflexivity.
  - rewrite H. cbn [fst snd extend page calls world start app].
    pose proof pre_plain as P.
    split; [ reflexivity | ]. split; [ reflexivity | ].
    split; [ | split; [ | split; [ | split; reflexivity ] ] ];
      rewrite existsb_app; cbn [existsb is_binder_passed is_range_output is_prediction_output orb];
      rewrite orb_false_r; apply existsb_forallb_negb;
      (eapply forallb_weaken; [ | exact P ]); intros e He;
      apply negb_true_iff in He; apply orb_false_iff in He; destruct He as [He He3];
      apply orb_false_iff in He; destruct He as [He1 He2];
      apply negb_true_iff; assumption.
Qed.

(** ** Loading the estimators *)

(** C6: each artifact is loaded on its own.  An [Exception] thrown by
    [joblib.load] is caught: [load_model] returns [None] and renders an
    error naming the path and the exception; it never throws.  The three
    loads all run, whatever the others did: each model is the value found
    at its own path (or [None]), the errors of the failed loads are
    rendered in order, and the script goes on. *)
Theorem load_failures_contained path s :
  (forall e, joblib_load path = inr e ->
             load_model path s = (inl PyNone, extend s [Error (CouldNotLoad path e)]))
  /\ (forall m, joblib_load path = inl m -> load_model path s = (inl m, s))
  /\ fst (load_model path s) = inl (loaded path)
  /\ load_models s =
     (inl (loaded "GUI_SYS.joblib", loaded "GUI_DYS.joblib", loaded "GUI_PV.joblib"),
      extend s (load_errors "GUI_SYS.joblib" ++ load_errors "GUI_DYS.joblib"
                ++ load_errors "GUI_PV.joblib"))
  /\ (fst (script s) = inl tt \/ fst (script s) = inr StopException)
  /\ exists rest, page (snd (script s)) =
                  page s ++ (load_errors "GUI_SYS.joblib" ++ load_errors "GUI_DYS.joblib"
                             ++ load_errors "GUI_PV.joblib") ++ header_page ++ rest.
Proof.
  split; [ | split; [ | split; [ | split; [ | split ] ] ] ].
  - intros e He. rewrite load_model_run. unfold loaded, load_errors. rewrite He. reflexivity.
  - intros m Hm. rewrite load_model_run. unfold loaded, load_errors. rewrite Hm.
    rewrite extend_nil. reflexivity.
  - rewrite load_model_run. reflexivity.
  - rewrite load_models_run. cbn [flat_map artifacts]. rewrite app_nil_r. reflexivity.
  - pose proof (script_outcome s) as H. cbv zeta in H.
    destruct (py_ne _ _).
    + right. rewrite H. reflexivity.
    + left. destruct H as (s' & l & c & E & _). rewrite E. reflexivity.
  - pose proof (script_outcome s) as H. cbv zeta in H.
    cbn [flat_map artifacts] in H. rewrite app_nil_r in H.
    destruct (py_ne _ _).
    + rewrite H. cbn [snd extend page].
      eexists. repeat rewrite <- app_assoc. reflexivity.
    + destruct H as (s' & l & c & E & (_ & _ & Hp & _) & _). rewrite E. cbn [snd].
      rewrite Hp. eexists. repeat rewrite <- app_assoc. reflexivity.
Qed.

(** ** The all-or-nothing gate *)

(** The chain [model_SYS and model_DYS and model_PV] is truthy exactly
    when the three values are. *)
Lemma gate_all model_SYS model_DYS model_PV :
  gate model_SYS model_DYS model_PV =
  py_bool model_SYS && py_bool model_DYS && py_bool model_PV.
Proof.
  unfold gate, py_and.
  destruct (py_bool model_SYS) eqn:ES; cbn [andb].
  - destruct (py_bool model_DYS) eqn:ED; cbn [andb].
    + reflexivity.
    + exact ED.
  - rewrite ES. exact ES.
Qed.

Lemma loaded_failed path e : joblib_load path = inr e -> loaded path = PyNone.
Proof. intros H. unfold loaded. rewrite H. reflexivity. Qed.

Lemma load_errors_failed path e :
  joblib_load path = inr e -> load_errors path = [Error (CouldNotLoad path e)].
Proof. intros H. unfold load_errors. rewrite H. reflexivity. Qed.

Lemma gate_load_failed path e :
  In path artifacts -> joblib_load path = inr e ->
  gate (loaded "GUI_SYS.joblib") (loaded "GUI_DYS.joblib") (loaded "GUI_PV.joblib") = false.
Proof.
  intros Hin He. rewrite gate_all.
  destruct Hin as [<- | [<- | [<- | []]]]; rewrite (loaded_failed _ _ He); cbn [py_bool].
  - reflexivity.
  - apply andb_false_iff. left. apply andb_false_r.
  - apply andb_false_r.
Qed.


Lemma range_report_plain v :
  is_prediction_offer (range_report v) = false
  /\ is_models_not_loaded (range_report v) = false
  /\ is_button (range_report v) = false.
Proof. unfold range_report. destruct (out_of_range v); repeat split; reflexivity. Qed.

Lemma existsb_skip {A : Type} (p : A -> bool) (pre rest : list A) :
  existsb p pre = false -> existsb p (pre ++ rest) = existsb p rest.
Proof. intros H. rewrite existsb_app, H. reflexivity. Qed.

(** C3: if the load of any one of the three artifacts throws, then
    whatever is typed in and whether or not the button state is set, the
    run shows the load error, offers no button, renders no table, chart
    or per-time prediction error, calls no estimator and leaves the
    estimators' state alone; and when the binder test passes it shows
    the models-not-loaded error in place of the button. *)
Theorem load_failure_blocks_prediction path e inp clicked w :
  In path artifacts ->
  joblib_load path = inr e ->
  let s' := snd (script (start inp clicked w)) in
  In (Error (CouldNotLoad path e)) (page s')
  /\ existsb is_prediction_offer (page s') = false
  /\ calls s' = []
  /\ world s' = w
  /\ existsb is_models_not_loaded (page s') = (binder_sum inp =? 100)%float.
Proof.
  intros Hin He. cbv zeta.
  pose proof (gate_load_failed path e Hin He) as Hg.
  assert (Herr : In (Error (CouldNotLoad path e)) (flat_map load_errors artifacts)).
  { apply in_flat_map. exists path. split; [ exact Hin | ].
    rewrite (load_errors_failed _ _ He). left. reflexivity. }
  assert (Hpre : existsb is_prediction_offer (flat_map load_errors artifacts ++ header_page) = false
                 /\ existsb is_models_not_loaded (flat_map load_errors artifacts ++ header_page)
                    = false).
  { unfold artifacts, flat_map, load_errors.
    destruct (joblib_load "GUI_SYS.joblib"), (joblib_load "GUI_DYS.joblib"),
      (joblib_load "GUI_PV.joblib"); split; reflexivity. }
  destruct Hpre as [Hpre1 Hpre2].
  destruct (range_report_plain inp) as (Hr1 & Hr2 & _).
  pose proof (script_outcome (start inp clicked w)) as H. cbv zeta in H.
  change (widgets (start inp clicked w)) with inp in H.
  rewrite py_ne_binder, Hg in H.
  destruct (binder_sum inp =? 100)%float; cbn [negb] in H.
  - destruct H as (s' & l & c & E & D & _ & _ & -> & -> & Hw).
    rewrite E. cbn [snd]. apply delta_start in D. destruct D as (_ & Hp & Hc).
    rewrite Hp, Hc, Hw. cbn [world start].
    split; [ apply in_or_app; left; apply in_or_app; left; exact Herr | ].
    rewrite (existsb_skip _ _ _ Hpre1), (existsb_skip _ _ _ Hpre2).
    cbn [app existsb is_prediction_offer is_models_not_loaded orb].
    rewrite Hr1, Hr2. auto.
  - rewrite H. cbn [snd extend page calls world start app].
    split; [ apply in_or_app; left; apply in_or_app; left; exact Herr | ].
    rewrite (existsb_skip _ _ _ Hpre1), (existsb_skip _ _ _ Hpre2).
    cbn [existsb is_prediction_offer is_models_not_loaded orb]. auto.
Qed.

(** C9: the gate of Step 3 looks at the truth value of the three loaded
    objects.  When the binder test passes, the button is on the page
    exactly when all three are truthy, and the models-not-loaded error
    exactly when one is not: an object that unpickles but is falsy closes
    the gate just as [None] does, and then no estimator is called. *)
Theorem gate_tests_truthiness inp clicked w :
  (binder_sum inp =? 100)%float = true ->
  let model_SYS := loaded "GUI_SYS.joblib" in
  let model_DYS := loaded "GUI_DYS.joblib" in
  let model_PV := loaded "GUI_PV.joblib" in
  let open := py_bool model_SYS && py_bool model_DYS && py_bool model_PV in
  let s' := snd (script (start inp clicked w)) in
  gate model_SYS model_DYS model_PV = open
  /\ py_bool PyNone = false
  /\ (forall o, py_bool (PyObject o) = truthy o)
  /\ existsb is_button (page s') = open
  /\ existsb is_models_not_loaded (page s') = negb open
  /\ (open = false -> existsb is_prediction_offer (page s') = false /\ calls s' = []).
Proof.
  intros Hsum. cbv zeta.
  split; [ apply gate_all | ]. split; [ reflexivity | ]. split; [ reflexivity | ].
  assert (Hpre : existsb is_prediction_offer (flat_map load_errors artifacts ++ header_page) = false
                 /\ existsb is_models_not_loaded (flat_map load_errors artifacts ++ header_page)
                    = false
                 /\ existsb is_button (flat_map load_errors artifacts ++ header_page) = false).
  { unfold artifacts, flat_map, load_errors.
    destruct (joblib_load "GUI_SYS.joblib"), (joblib_load "GUI_DYS.joblib"),
      (joblib_load "GUI_PV.joblib"); repeat split; reflexivity. }
  destruct Hpre as (Hpre1 & Hpre2 & Hpre3).
  destruct (range_report_plain inp) as (Hr1 & Hr2 & Hr3).
  pose proof (script_outcome (start inp clicked w)) as H. cbv zeta in H.
  change (widgets (start inp clicked w)) with inp in H.
  rewrite py_ne_binder, Hsum in H. cbn [negb] in H.
  rewrite <- gate_all.
  destruct H as (s' & l & c & E & D & _ & _ & Hg).
  rewrite E. cbn [snd]. apply delta_start in D. destruct D as (_ & Hp & Hc).
  rewrite Hp, Hc.
  destruct (gate _ _ _).
  - destruct Hg as (l' & -> & P & _).
    rewrite (existsb_skip _ _ _ Hpre2), (existsb_skip _ _ _ Hpre3).
    cbn [app existsb is_button is_models_not_loaded orb negb].
    rewrite Hr2, Hr3. cbn [orb].
    split; [ reflexivity | ]. split; [ | discriminate ].
    rewrite existsb_app. cbn [existsb is_models_not_loaded orb]. rewrite orb_false_r.
    apply existsb_forallb_negb.
    revert P. clear. induction l' as [ | x l' IH]; cbn; [ reflexivity | ].
    intros H. apply andb_true_iff in H. destruct H as [Hx Hl]. rewrite (IH Hl), andb_true_r.
    destruct x as [[ | | | ] | | | [ | | | | | ] | | | | ]; cbn in Hx |- *; congruence.
  - destruct Hg as (-> & -> & _).
    rewrite (existsb_skip _ _ _ Hpre1), (existsb_skip _ _ _ Hpre2), (existsb_skip _ _ _ Hpre3).
    cbn [app existsb is_button is_models_not_loaded is_prediction_offer orb negb].
    rewrite Hr1, Hr2, Hr3. auto.
Qed.

(** ** The range check is advisory *)

(** C5: bounds are inclusive.  For every field of [ranges], a value equal
    to its lower or upper bound leaves no entry for that field in
    [out_of_range], and a value strictly below the lower or strictly
    above the upper bound leaves exactly one, carrying the field's name,
    value and bounds.  [out_of_range] is empty exactly when every field
    is within its bounds.  The check stops nothing: whether the run is
    stopped depends on the binder test alone, and when that passes the
    range report is rendered and Step 3 and the footer follow. *)
Theorem range_check_advisory v clicked w param low high val :
  In (param, (low, high, val)) (ranges v) ->
  let r := script (start v clicked w) in
  (py_eq val low = true \/ py_eq val high = true -> entries_for param v = [])
  /\ (py_lt val low = true \/ py_lt high val = true ->
      entries_for param v = [mkViolation param val low high])
  /\ (out_of_range v = [] <->
      forall p l h x, In (p, (l, h, x)) (ranges v) -> within l h x = true)
  /\ fst r = (if (binder_sum v =? 100)%float then inl tt else inr StopException)
  /\ ((binder_sum v =? 100)%float = true ->
      exists before after,
        page (snd r) =
        before ++ [range_report v; Markdown (StepTitle 3)] ++ after ++ [Markdown Footer]).
Proof.
  intros Hin. cbv zeta.
  destruct (ranges_bounds _ _ _ _ _ Hin) as (Hb & f & ->).
  split; [ | split; [ | split; [ | split ] ] ].
  - intros H. rewrite (entries_for_spec _ _ _ _ _ Hin), (within_at_bound _ _ _ Hb H).
    reflexivity.
  - intros H. rewrite (entries_for_spec _ _ _ _ _ Hin), (within_outside _ _ _ H).
    reflexivity.
  - apply out_of_range_nil.
  - pose proof (script_outcome (start v clicked w)) as H. cbv zeta in H.
    change (widgets (start v clicked w)) with v in H. rewrite py_ne_binder in H.
    destruct (binder_sum v =? 100)%float; cbn [negb] in H.
    + destruct H as (s' & l & c & E & _). rewrite E. reflexivity.
    + rewrite H. reflexivity.
  - intros Hsum.
    pose proof (script_outcome (start v clicked w)) as H. cbv zeta in H.
    change (widgets (start v clicked w)) with v in H.
    rewrite py_ne_binder, Hsum in H. cbn [negb] in H.
    destruct H as (s' & l & c & E & D & _). rewrite E. cbn [snd].
    apply delta_start in D. destruct D as (_ & -> & _).
    exists ((flat_map load_errors artifacts ++ header_page)
              ++ [Markdown (StepTitle 2); Success BinderCheckPassed]), l.
    repeat rewrite <- app_assoc. reflexivity.
Qed.

(** ** Validation and prediction leave the inputs alone *)

Lemma step2_frame v s :
  widgets (snd (step2 v s)) = widgets s
  /\ world (snd (step2 v s)) = world s
  /\ calls (snd (step2 v s)) = calls s.
Proof. rewrite step2_run. destruct (py_ne _ _); auto. Qed.

(** C10: validation reads the eight values and writes none: Step 2
    leaves the widget values, the estimators' state and the call record
    as they were, and so does the whole run for the widget values.  Every
    frame handed to an estimator holds the eight values exactly as
    entered, in field order, followed by the time value 0 or 1, whether
    or not they lie within the recommended ranges. *)
Theorem inputs_forwarded_as_entered inp clicked w :
  let r := script (start inp clicked w) in
  widgets (snd r) = inp
  /\ (forall s, widgets (snd (step2 inp s)) = widgets s
                /\ world (snd (step2 inp s)) = world s
                /\ calls (snd (step2 inp s)) = calls s)
  /\ Forall (fun nX =>
               exists time_val,
                 (time_val = 0 \/ time_val = 1)%Z
                 /\ snd nX =
                    mkDataFrame
                      [[PyFloat (w_opc inp); PyFloat (w_cc inp); PyFloat (w_lp inp);
                        PyFloat (w_nc inp); PyFloat (w_gyp inp); PyFloat (w_sb inp);
                        PyFloat (w_wb inp); PyFloat (w_sp inp); PyInt time_val]]
                      feature_names)
            (calls (snd r)).
Proof.
  cbv zeta.
  pose proof (script_outcome (start inp clicked w)) as H. cbv zeta in H.
  change (widgets (start inp clicked w)) with inp in H.
  split; [ | split; [ intros s; apply step2_frame | ] ].
  - destruct (py_ne _ _).
    + rewrite H. reflexivity.
    + destruct H as (s' & l & c & E & D & _). rewrite E. cbn [snd].
      apply delta_start in D. tauto.
  - destruct (py_ne _ _).
    + rewrite H. constructor.
    + destruct H as (s' & l & c & E & D & _ & F & _). rewrite E. cbn [snd].
      apply delta_start in D. destruct D as (_ & _ & ->).
      eapply Forall_impl; [ | exact F ].
      intros [name X] [HX | HX]; cbn [snd] in HX |- *; subst X.
      * exists 0%Z. auto.
      * exists 1%Z. auto.
Qed.

(** ** Not-a-number and infinite values *)

Lemma SFcompare_refl (x : spec_float) :
  x <> S754_nan -> SFcompare x x = Some Eq.
Proof.
  destruct x as [s | s | | s m e]; cbn; intros H.
  - reflexivity.
  - destruct s; reflexivity.
  - contradiction.
  - rewrite Z.compare_refl, Pcompare_refl. destruct s; reflexivity.
Qed.


Lemma SF_fin_not_nan (f : float) : SF_is_fin (Prim2SF f) = true -> is_nan f = false.
Proof.
  intros H. unfold is_nan. rewrite eqb_spec. unfold SFeqb.
  rewrite SFcompare_refl; [ reflexivity | ].
  intros E. rewrite E in H. discriminate.
Qed.

Lemma Prim2SF_infinity : Prim2SF infinity = S754_infinity false.
Proof. vm_compute. reflexivity. Qed.

Lemma Prim2SF_100 : Prim2SF 100 = S754_finite false 7036874417766400 (-46).
Proof. vm_compute. reflexivity. Qed.

Lemma SF_fin_not_infinity (f : float) : SF_is_fin (Prim2SF f) = true -> is_infinity f = false.
Proof.
  intros H. unfold is_infinity. rewrite eqb_spec, abs_spec, Prim2SF_infinity.
  destruct (Prim2SF f) as [s | s | | s m e]; cbn in H |- *; try discriminate; reflexivity.
Qed.

(** A sum is a number only if both operands are. *)
Lemma add_fin_inv (a b : float) :
  SF_is_fin (Prim2SF (a + b)%float) = true ->
  SF_is_fin (Prim2SF a) = true /\ SF_is_fin (Prim2SF b) = true.
Proof.
  rewrite add_spec. unfold SF64add.
  destruct (Prim2SF a) as [sa | sa | | sa ma ea], (Prim2SF b) as [sb | sb | | sb mb eb];
    cbn [SFadd SF_is_fin]; auto; try discriminate.
  destruct sa, sb; cbn; auto; discriminate.
Qed.

Lemma eqb_100_fin (x : float) : (x =? 100)%float = true -> SF_is_fin (Prim2SF x) = true.
Proof.
  rewrite eqb_spec, Prim2SF_100. unfold SFeqb.
  destruct (Prim2SF x) as [s | s | | s m e]; cbn [SFcompare SF_is_fin];
    try reflexivity; try discriminate.
  destruct s; discriminate.
Qed.

(** ** The calls of one press *)

Ltac prefix_throw :=
  split; [ lia | split; [ reflexivity | left; eexists; reflexivity ] ].

(** The [try] body calls SYS, then DYS, then PV, and stops at the first
    throw; it returns a row only after the third call. *)
Lemma try_body_prefix model_SYS model_DYS model_PV v results time_val label s :
  let r := try_body model_SYS model_DYS model_PV v results time_val label s in
  exists n w',
    (n <= 3)%nat
    /\ snd r = mkState (widgets s) (predict_btn s) (page s) w'
                       (calls s ++ firstn n (three_calls v time_val))
    /\ ((exists e, fst r = inr (Exception e))
        \/ (n = 3%nat /\ exists ys yd yp, fst r = inl (results ++ [mkRow label ys yd yp]))).
Proof.
  cbv zeta. unfold try_body, bind, call_predict, ret, three_calls.
  destruct s as [wd b p w cs]. cbn [widgets predict_btn page world calls].
  destruct model_SYS as [ | oS].
  { exists 0%nat, w. cbn [firstn fst snd widgets predict_btn page world calls]. rewrite app_nil_r. prefix_throw. }
  destruct (predict oS w (input_data v time_val)) as [w1 [ys | e]]; cbn [fst snd widgets predict_btn page world calls].
  2: { exists 1%nat, w1. cbn [firstn fst snd widgets predict_btn page world calls]. prefix_throw. }
  destruct model_DYS as [ | oD].
  { exists 1%nat, w1. cbn [firstn fst snd widgets predict_btn page world calls]. prefix_throw. }
  destruct (predict oD w1 (input_data v time_val)) as [w2 [yd | e]]; cbn [fst snd widgets predict_btn page world calls].
  2: { exists 2%nat, w2. cbn [firstn fst snd widgets predict_btn page world calls]. rewrite <- app_assoc. cbn [app]. prefix_throw. }
  destruct model_PV as [ | oP].
  { exists 2%nat, w2. cbn [firstn fst snd widgets predict_btn page world calls]. rewrite <- app_assoc. cbn [app]. prefix_throw. }
  destruct (predict oP w2 (input_data v time_val)) as [w3 [yp | e]]; cbn [fst snd widgets predict_btn page world calls].
  2: { exists 3%nat, w3. cbn [firstn fst snd widgets predict_btn page world calls]. rewrite <- !app_assoc. cbn [app]. prefix_throw. }
  exists 3%nat, w3. cbn [firstn fst snd widgets predict_btn page world calls]. rewrite <- !app_assoc. cbn [app].
  split; [ lia | ]. split; [ reflexivity | ]. right. eauto 8.
Qed.

(** One turn of the loop: a prefix of the three calls is made; either the
    row of this time value is appended, after all three calls, or one
    error naming the label is rendered and [results] is left as it was. *)
Lemma time_step_shape model_SYS model_DYS model_PV v results time_val label s :
  exists n s' new err,
    time_step model_SYS model_DYS model_PV v results (time_val, label) s =
      (inl (results ++ new), s')
    /\ (n <= 3)%nat
    /\ widgets s' = widgets s
    /\ calls s' = calls s ++ firstn n (three_calls v time_val)
    /\ page s' = page s ++ err
    /\ ((n = 3%nat /\ err = [] /\ exists ys yd yp, new = [mkRow label ys yd yp])
        \/ (new = [] /\ exists e, err = [Error (PredictionFailed label e)])).
Proof.
  pose proof (try_body_prefix model_SYS model_DYS model_PV v results time_val label s) as H.
  cbv zeta in H. destruct H as (n & w' & Hn & Hs & Hr).
  destruct (try_body model_SYS model_DYS model_PV v results time_val label s) as [r s1] eqn:E.
  cbn [fst snd] in Hs, Hr. subst s1.
  destruct Hr as [(e & ->) | (-> & ys & yd & yp & ->)].
  - exists n, (extend (mkState (widgets s) (predict_btn s) (page s) w'
                         (calls s ++ firstn n (three_calls v time_val)))
                      [Error (PredictionFailed label e)]),
      [], [Error (PredictionFailed label e)].
    rewrite (time_step_failed _ _ _ _ _ _ _ _ _ _ E), app_nil_r.
    cbn [extend widgets calls page]. eauto 10.
  - exists 3%nat, (mkState (widgets s) (predict_btn s) (page s) w'
                     (calls s ++ firstn 3 (three_calls v time_val))),
      [mkRow label ys yd yp], [].
    rewrite (time_step_ok _ _ _ _ _ _ _ _ _ _ E), app_nil_r.
    cbn [widgets calls page]. eauto 12.
Qed.

(** The loop: two turns, time value 0 then 1. *)
Lemma time_loop_shape model_SYS model_DYS model_PV v s :
  exists n0 n1 s' rows0 rows1 err0 err1,
    time_loop model_SYS model_DYS model_PV v s = (inl (rows0 ++ rows1), s')
    /\ (n0 <= 3)%nat /\ (n1 <= 3)%nat
    /\ widgets s' = widgets s
    /\ calls s' = calls s ++ firstn n0 (three_calls v 0) ++ firstn n1 (three_calls v 1)
    /\ page s' = page s ++ err0 ++ err1
    /\ ((n0 = 3%nat /\ err0 = [] /\ exists ys yd yp, rows0 = [mkRow "10 min" ys yd yp])
        \/ (rows0 = [] /\ exists e, err0 = [Error (PredictionFailed "10 min" e)]))
    /\ ((n1 = 3%nat /\ err1 = [] /\ exists ys yd yp, rows1 = [mkRow "30 min" ys yd yp])
        \/ (rows1 = [] /\ exists e, err1 = [Error (PredictionFailed "30 min" e)])).
Proof.
  destruct (time_step_shape model_SYS model_DYS model_PV v [] 0 "10 min" s)
    as (n0 & s0 & rows0 & err0 & E0 & Hn0 & Hw0 & Hc0 & Hp0 & H0).
  destruct (time_step_shape model_SYS model_DYS model_PV v ([] ++ rows0) 1 "30 min" s0)
    as (n1 & s1 & rows1 & err1 & E1 & Hn1 & Hw1 & Hc1 & Hp1 & H1).
  exists n0, n1, s1, rows0, rows1, err0, err1.
  unfold time_loop. cbn [combine for_in].
  rewrite (bind_inl _ _ _ _ _ E0), (bind_inl _ _ _ _ _ E1).
  unfold ret. cbn [app].
  rewrite Hw1, Hw0, Hc1, Hc0, Hp1, Hp0, <- !app_assoc. auto 10.
Qed.

Lemma forallb_press_results_view results :
  forallb is_press_output (results_view results) = true.
Proof. destruct results; reflexivity. Qed.

(** A press: the loop, then the result views. *)
Lemma on_predict_shape model_SYS model_DYS model_PV v s :
  exists n0 n1 s' l,
    on_predict model_SYS model_DYS model_PV v s = (inl tt, s')
    /\ (n0 <= 3)%nat /\ (n1 <= 3)%nat
    /\ calls s' = calls s ++ firstn n0 (three_calls v 0) ++ firstn n1 (three_calls v 1)
    /\ page s' = page s ++ l
    /\ forallb is_press_output l = true.
Proof.
  destruct (time_loop_shape model_SYS model_DYS model_PV v s)
    as (n0 & n1 & s1 & rows0 & rows1 & err0 & err1 & E & Hn0 & Hn1 & _ & Hc & Hp & H0 & H1).
  exists n0, n1, (extend s1 (results_view (rows0 ++ rows1))),
    ((err0 ++ err1) ++ results_view (rows0 ++ rows1)).
  unfold on_predict. rewrite (bind_inl _ _ _ _ _ E), show_results_run.
  cbn [extend calls page]. rewrite Hp, <- !app_assoc.
  repeat (split; [ assumption || reflexivity | ]).
  rewrite !forallb_app, forallb_press_results_view.
  destruct H0 as [(_ & -> & _) | (_ & e0 & ->)], H1 as [(_ & -> & _) | (_ & e1 & ->)];
    reflexivity.
Qed.

Lemma pre_filters :
  filter is_step_outcome (flat_map load_errors artifacts ++ header_page) = []
  /\ filter is_range_output (flat_map load_errors artifacts ++ header_page) = []
  /\ filter is_press_output (flat_map load_errors artifacts ++ header_page) = []
  /\ filter is_load_error (flat_map load_errors artifacts ++ header_page) =
     flat_map load_errors artifacts.
Proof.
  unfold artifacts, flat_map, load_errors.
  destruct (joblib_load "GUI_SYS.joblib"), (joblib_load "GUI_DYS.joblib"),
    (joblib_load "GUI_PV.joblib"); repeat split; reflexivity.
Qed.

Lemma filter_none {A : Type} (p q : A -> bool) (l : list A) :
  (forall x, p x = true -> q x = false) -> forallb p l = true -> filter q l = [].
Proof.
  intros H. induction l as [ | x l IH]; cbn; [ reflexivity | ].
  intros Hl. apply andb_true_iff in Hl. destruct Hl as [Hx Hl].
  rewrite (H x Hx). auto.
Qed.

(** The page and the calls of a whole run. *)
Lemma script_page s :
  let v := widgets s in
  let s' := snd (script s) in
  exists l' n0 n1,
    page s' =
      page s ++ (flat_map load_errors artifacts ++ header_page)
        ++ [Markdown (StepTitle 2)]
        ++ (if py_ne (PyFloat (binder_sum v)) (PyInt 100)
            then [Error (BinderNot100 (binder_sum v))]
            else [Success BinderCheckPassed; range_report v; Markdown (StepTitle 3)]
                 ++ (if gate (loaded "GUI_SYS.joblib") (loaded "GUI_DYS.joblib")
                             (loaded "GUI_PV.joblib")
                     then Button "Predict rheological parameters" :: l'
                     else [Error ModelsNotLoaded])
                 ++ [Markdown Footer])
    /\ forallb is_press_output l' = true
    /\ (n0 <= 3)%nat /\ (n1 <= 3)%nat
    /\ calls s' = calls s ++ firstn n0 (three_calls v 0) ++ firstn n1 (three_calls v 1)
    /\ (predict_btn s = false -> l' = [] /\ calls s' = calls s /\ world s' = world s).
Proof.
  cbv zeta. pose proof (script_run s) as R. cbv zeta in R. rewrite R. clear R.
  destruct (py_ne (PyFloat (binder_sum (widgets s))) (PyInt 100)).
  { exists [], 0%nat, 0%nat. cbn [snd extend page calls world firstn app].
    rewrite app_nil_r, <- !app_assoc. repeat split; auto; lia. }
  set (L1 := (flat_map load_errors artifacts ++ header_page)
               ++ [Markdown (StepTitle 2); Success BinderCheckPassed;
                   range_report (widgets s)]).
  unfold bind. rewrite step3_run. cbn [fst snd].
  destruct (gate _ _ _).
  - change (predict_btn (extend s L1)) with (predict_btn s).
    destruct (predict_btn s) eqn:Hb.
    + destruct (on_predict_shape (loaded "GUI_SYS.joblib") (loaded "GUI_DYS.joblib")
                  (loaded "GUI_PV.joblib") (widgets s)
                  (extend (extend s L1)
                     [Markdown (StepTitle 3); Button "Predict rheological parameters"]))
        as (n0 & n1 & s' & l & E & Hn0 & Hn1 & Hc & Hp & Hl).
      rewrite E. unfold st_markdown. rewrite render_run.
      exists l, n0, n1. cbn [snd extend page calls] in Hc, Hp |- *.
      rewrite Hp, Hc. unfold L1. rewrite <- !app_assoc. cbn [app].
      repeat split; auto; discriminate.
    + unfold st_markdown. rewrite render_run.
      exists [], 0%nat, 0%nat. cbn [snd extend page calls world firstn app].
      unfold L1. rewrite app_nil_r, <- !app_assoc. cbn [app].
      repeat split; auto; lia.
  - unfold st_markdown. rewrite render_run.
    exists [], 0%nat, 0%nat. cbn [snd extend page calls world firstn app].
    unfold L1. rewrite app_nil_r, <- !app_assoc. cbn [app].
    repeat split; auto; lia.
Qed.

(** ** Further properties of the range check *)

Lemma NoDup_map_fst_filter {A B : Type} (p : A * B -> bool) (l : list (A * B)) :
  NoDup (map fst l) -> NoDup (map fst (filter p l)).
Proof.
  induction l as [ | x l IH]; cbn; intros H; [ constructor | ].
  inversion H as [ | ? ? Hx Hl]. subst.
  destruct (p x); cbn; auto.
  constructor; auto.
  intros Hin. apply Hx. apply in_map_iff in Hin. destruct Hin as (y & Hy & Hin).
  apply filter_In in Hin. rewrite <- Hy. apply in_map. tauto.
Qed.

Lemma filter_length_bound {A : Type} (p : A -> bool) (l : list A) :
  (List.length (filter p l) <= List.length l)%nat.
Proof.
  induction l as [ | x l IH]; cbn; [ lia | ]. destruct (p x); cbn; lia.
Qed.

(** X1: [out_of_range] holds exactly the fields of [ranges] whose value
    fails [low <= val <= high], in dict order, each once, with the value
    as entered and the two bounds; it never has more than eight
    entries. *)
Theorem out_of_range_entries v :
  out_of_range v = map entry_of (filter violates (ranges v))
  /\ (forall e,
        In e (out_of_range v) <->
        exists param low high val,
          In (param, (low, high, val)) (ranges v)
          /\ within low high val = false
          /\ e = mkViolation param val low high)
  /\ NoDup (map v_param (out_of_range v))
  /\ (List.length (out_of_range v) <= 8)%nat.
Proof.
  rewrite out_of_range_filter.
  split; [ reflexivity | ]. split; [ | split ].
  - intros e. rewrite in_map_iff. split.
    + intros ([param [[low high] val]] & <- & Hin). apply filter_In in Hin.
      destruct Hin as [Hin Hv]. cbn in Hv. apply negb_true_iff in Hv.
      exists param, low, high, val. auto.
    + intros (param & low & high & val & Hin & Hw & ->).
      exists (param, (low, high, val)). split; [ reflexivity | ].
      apply filter_In. split; [ exact Hin | ]. cbn. rewrite Hw. reflexivity.
  - rewrite map_map.
    rewrite (map_ext _ fst); [ | intros [param [[low high] val]]; reflexivity ].
    apply NoDup_map_fst_filter, ranges_keys_NoDup.
  - rewrite length_map.
    exact (filter_length_bound violates (ranges v)).
Qed.


(** X7: a run that is not stopped has finite binder values: the binary64
    sum of OPC, CC, LP and GYP can equal 100 only if none of the four is
    NaN or infinite. *)
Theorem binder_pass_finite v clicked w :
  fst (script (start v clicked w)) = inl tt ->
  is_finite (w_opc v) = true /\ is_finite (w_cc v) = true
  /\ is_finite (w_lp v) = true /\ is_finite (w_gyp v) = true.
Proof.
  intros Hrun.
  pose proof (script_outcome (start v clicked w)) as H. cbv zeta in H.
  change (widgets (start v clicked w)) with v in H. rewrite py_ne_binder in H.
  destruct (binder_sum v =? 100)%float eqn:Hsum; cbn [negb] in H.
  2: { rewrite H in Hrun. discriminate. }
  clear H Hrun. apply eqb_100_fin in Hsum. unfold binder_sum in Hsum.
  apply add_fin_inv in Hsum. destruct Hsum as [Hsum Hg].
  apply add_fin_inv in Hsum. destruct Hsum as [Hsum Hl].
  apply add_fin_inv in Hsum. destruct Hsum as [Ho Hc].
  unfold is_finite.
  repeat split;
    match goal with
    | Hx : SF_is_fin (Prim2SF ?x) = true |- negb (is_nan ?x || is_infinity ?x) = true =>
        rewrite (SF_fin_not_nan _ Hx), (SF_fin_not_infinity _ Hx); reflexivity
    end.
Qed.

(** ** Further properties of the time loop *)

(** X4: whatever the three models are or do, each time value leaves
    either its row or its error, never both and never neither, in the
    order "10 min", "30 min": the loop ends in one of four ways. *)
Theorem each_time_row_or_error model_SYS model_DYS model_PV v s :
  exists rows errs s',
    time_loop model_SYS model_DYS model_PV v s = (inl rows, s')
    /\ page s' = page s ++ errs
    /\ widgets s' = widgets s
    /\ ((exists r0 r1, rows = [r0; r1] /\ row_label r0 = "10 min"
                       /\ row_label r1 = "30 min" /\ errs = [])
        \/ (exists r1 e0, rows = [r1] /\ row_label r1 = "30 min"
                          /\ errs = [Error (PredictionFailed "10 min" e0)])
        \/ (exists r0 e1, rows = [r0] /\ row_label r0 = "10 min"
                          /\ errs = [Error (PredictionFailed "30 min" e1)])
        \/ (exists e0 e1, rows = []
                          /\ errs = [Error (PredictionFailed "10 min" e0);
                                     Error (PredictionFailed "30 min" e1)])).
Proof.
  destruct (time_loop_shape model_SYS model_DYS model_PV v s)
    as (n0 & n1 & s' & rows0 & rows1 & err0 & err1 & E & _ & _ & Hw & _ & Hp & H0 & H1).
  exists (rows0 ++ rows1), (err0 ++ err1), s'.
  split; [ exact E | ]. split; [ exact Hp | ]. split; [ exact Hw | ].
  destruct H0 as [(_ & -> & ys0 & yd0 & yp0 & ->) | (-> & e0 & ->)],
           H1 as [(_ & -> & ys1 & yd1 & yp1 & ->) | (-> & e1 & ->)]; cbn [app].
  - left. eauto 8.
  - right. right. left. eauto 8.
  - right. left. eauto 8.
  - right. right. right. eauto 8.
Qed.

(** X5: the estimators are called in a fixed order.  The calls of the
    loop are a prefix of SYS, DYS, PV on the time-0 frame followed by a
    prefix of SYS, DYS, PV on the time-1 frame, so DYS is never asked
    before SYS nor PV before DYS, and after a throw the remaining
    estimators are not asked for that time value; a row is kept only for
    a time value whose three calls were all made.  A whole run makes at
    most six calls. *)
Theorem calls_in_fixed_order model_SYS model_DYS model_PV inp clicked w s :
  (exists n0 n1 rows s',
      time_loop model_SYS model_DYS model_PV inp s = (inl rows, s')
      /\ (n0 <= 3)%nat /\ (n1 <= 3)%nat
      /\ calls s' = calls s ++ firstn n0 (three_calls inp 0) ++ firstn n1 (three_calls inp 1)
      /\ (existsb (fun r => String.eqb (row_label r) "10 min") rows = true -> n0 = 3%nat)
      /\ (existsb (fun r => String.eqb (row_label r) "30 min") rows = true -> n1 = 3%nat))
  /\ (exists n0 n1,
      (n0 <= 3)%nat /\ (n1 <= 3)%nat
      /\ calls (snd (script (start inp clicked w))) =
         firstn n0 (three_calls inp 0) ++ firstn n1 (three_calls inp 1))
  /\ (List.length (calls (snd (script (start inp clicked w)))) <= 6)%nat.
Proof.
  split; [ | split ].
  - destruct (time_loop_shape model_SYS model_DYS model_PV inp s)
      as (n0 & n1 & s' & rows0 & rows1 & err0 & err1 & E & Hn0 & Hn1 & _ & Hc & _ & H0 & H1).
    exists n0, n1, (rows0 ++ rows1), s'.
    repeat (split; [ assumption | ]).
    destruct H0 as [(-> & _ & ys0 & yd0 & yp0 & ->) | (-> & _)],
             H1 as [(-> & _ & ys1 & yd1 & yp1 & ->) | (-> & _)];
      cbn; split; intros; congruence.
  - pose proof (script_page (start inp clicked w)) as H. cbv zeta in H.
    destruct H as (l' & n0 & n1 & _ & _ & Hn0 & Hn1 & Hc & _).
    exists n0, n1. auto.
  - pose proof (script_page (start inp clicked w)) as H. cbv zeta in H.
    destruct H as (l' & n0 & n1 & _ & _ & Hn0 & Hn1 & Hc & _).
    rewrite Hc. cbn [start calls app]. rewrite length_app, !length_firstn.
    unfold three_calls. cbn [List.length]. lia.
Qed.

(** ** Further properties of the page *)

(** X3: while the button is not pressed a run calls no estimator, leaves
    the estimators' state as it is, and renders no table, chart or
    per-time error, whatever was loaded and typed in. *)
Theorem idle_run_calls_nothing inp w :
  let s' := snd (script (start inp false w)) in
  calls s' = [] /\ world s' = w /\ filter is_press_output (page s') = [].
Proof.
  cbv zeta. pose proof (script_page (start inp false w)) as H. cbv zeta in H.
  destruct H as (l' & n0 & n1 & Hp & _ & _ & _ & _ & Hidle).
  destruct (Hidle eq_refl) as (-> & Hc & Hw).
  split; [ exact Hc | ]. split; [ exact Hw | ].
  rewrite Hp. cbn [start page widgets app].
  destruct pre_filters as (_ & _ & Hpre & _).
  rewrite filter_app, Hpre. cbn [app].
  destruct (py_ne _ _); [ reflexivity | ].
  unfold range_report.
  destruct (gate _ _ _), (out_of_range inp); reflexivity.
Qed.


(** X8: the load errors of a run are exactly those of the artifacts whose
    load threw, one each, in load order, on every run, stopped or not. *)
Theorem load_errors_on_page inp clicked w :
  let s' := snd (script (start inp clicked w)) in
  filter is_load_error (page s') = flat_map load_errors artifacts
  /\ (forall path e,
        In (Error (CouldNotLoad path e)) (page s') <->
        In path artifacts /\ joblib_load path = inr e).
Proof.
  cbv zeta. pose proof (script_page (start inp clicked w)) as H. cbv zeta in H.
  destruct H as (l' & n0 & n1 & Hp & Hl & _).
  assert (Hf : filter is_load_error (page (snd (script (start inp clicked w)))) =
               flat_map load_errors artifacts).
  { rewrite Hp. cbn [start page widgets app].
    destruct pre_filters as (_ & _ & _ & Hpre).
    rewrite filter_app, Hpre.
    assert (Hl' : filter is_load_error l' = []).
    { apply (filter_none is_press_output); [ | exact Hl ].
      intros [[ | | | ] | | | [ | | | | | ] | | | | ]; cbn; congruence. }
    rewrite <- (app_nil_r (flat_map load_errors artifacts)) at 2. f_equal.
    destruct (py_ne _ _); [ reflexivity | ].
    unfold range_report.
    destruct (gate _ _ _), (out_of_range inp); cbn [filter is_load_error app];
      rewrite ?filter_app, ?Hl'; reflexivity. }
  split; [ exact Hf | ].
  intros path e.
  assert (Hin : In (Error (CouldNotLoad path e)) (page (snd (script (start inp clicked w)))) <->
                In (Error (CouldNotLoad path e)) (flat_map load_errors artifacts)).
  { rewrite <- Hf, filter_In. cbn [is_load_error]. tauto. }
  rewrite Hin, in_flat_map. split.
  - intros (p & Hp' & He). unfold load_errors in He.
    destruct (joblib_load p) as [m | e'] eqn:E; [ contradiction | ].
    destruct He as [He | []]. injection He as -> ->. auto.
  - intros (Hp' & He). exists path. split; [ exact Hp' | ].
    unfold load_errors. rewrite He. left. reflexivity.
Qed.

(** X9: a run shows at most one range message: none when it is stopped
    at the binder test, else exactly one, which is the all-in-range
    success when every field is within its bounds and otherwise a warning
    that lists all of [out_of_range]. *)
Theorem one_range_message inp clicked w :
  let s' := snd (script (start inp clicked w)) in
  filter is_range_output (page s') =
    (if (binder_sum inp =? 100)%float then [range_report inp] else [])
  /\ (range_report inp = Success AllInRange <-> out_of_range inp = [])
  /\ (range_report inp = Success AllInRange \/ range_report inp = Warning (out_of_range inp)).
Proof.
  cbv zeta. split; [ | split ].
  - pose proof (script_page (start inp clicked w)) as H. cbv zeta in H.
    destruct H as (l' & n0 & n1 & Hp & Hl & _).
    rewrite Hp. cbn [start page widgets app].
    destruct pre_filters as (_ & Hpre & _).
    rewrite filter_app, Hpre. cbn [app]. rewrite py_ne_binder.
    assert (Hl' : filter is_range_output l' = []).
    { apply (filter_none is_press_output); [ | exact Hl ].
      intros [[ | | | ] | [ | ] | | [ | | | | | ] | | | | ]; cbn; congruence. }
    destruct (binder_sum inp =? 100)%float; cbn [negb]; [ | reflexivity ].
    unfold range_report.
    destruct (gate _ _ _), (out_of_range inp); cbn [filter is_range_output app];
      rewrite ?filter_app, ?Hl'; reflexivity.
  - unfold range_report. destruct (out_of_range inp); split; intros H;
      reflexivity || discriminate.
  - unfold range_report. destruct (out_of_range inp); auto.
Qed.

(** ** Runs that warn about nothing, and repeated runs *)

Lemma within_fin low high (f : float) :
  SF_is_fin (Prim2SF (to_float low)) = true ->
  SF_is_fin (Prim2SF (to_float high)) = true ->
  within low high (PyFloat f) = true ->
  SF_is_fin (Prim2SF f) = true.
Proof.
  intros Hl Hh. unfold within.
  assert (El : py_le low (PyFloat f) = (to_float low <=? f)%float) by (destruct low; reflexivity).
  assert (Eh : py_le (PyFloat f) high = (f <=? to_float high)%float) by (destruct high; reflexivity).
  rewrite El, Eh, !leb_spec. unfold SFleb.
  destruct (Prim2SF (to_float low)) as [sl | sl | | sl ml el]; try discriminate;
    destruct (Prim2SF (to_float high)) as [sh | sh | | sh mh eh]; try discriminate;
    destruct (Prim2SF f) as [s | s | | s m e]; cbn [SFcompare SF_is_fin andb];
    try reflexivity; try discriminate;
    destruct s; try destruct sl; try destruct sh; cbn; discriminate.
Qed.

Lemma ranges_bounds_fin v param low high val :
  In (param, (low, high, val)) (ranges v) ->
  SF_is_fin (Prim2SF (to_float low)) = true /\ SF_is_fin (Prim2SF (to_float high)) = true.
Proof.
  unfold ranges. cbn [In]. intros H.
  repeat (destruct H as [H | H];
          [ injection H as <- <- <- <-; split; vm_compute; reflexivity | ]).
  contradiction.
Qed.

(** X10: when nothing is reported out of range, all eight values are
    finite numbers: the recommended bounds are finite, and a NaN or an
    infinite value is never within them. *)
Theorem in_range_inputs_finite v :
  out_of_range v = [] ->
  forallb is_finite
    [w_opc v; w_cc v; w_lp v; w_nc v; w_gyp v; w_sb v; w_wb v; w_sp v] = true.
Proof.
  intros H. rewrite out_of_range_nil in H.
  assert (Hfin : forall param low high f,
             In (param, (low, high, PyFloat f)) (ranges v) -> is_finite f = true).
  { intros param low high f Hin.
    destruct (ranges_bounds_fin _ _ _ _ _ Hin) as [Hl Hh].
    pose proof (within_fin _ _ _ Hl Hh (H _ _ _ _ Hin)) as Hf.
    unfold is_finite. rewrite (SF_fin_not_nan _ Hf), (SF_fin_not_infinity _ Hf). reflexivity. }
  cbn [forallb].
  rewrite (Hfin "OPC (%)" (PyInt 40) (PyInt 100) (w_opc v)) by (left; reflexivity).
  rewrite (Hfin "CC (%)" (PyInt 0) (PyInt 43) (w_cc v)) by (do 1 right; left; reflexivity).
  rewrite (Hfin "LP (%)" (PyInt 0) (PyInt 23) (w_lp v)) by (do 2 right; left; reflexivity).
  rewrite (Hfin "NC (%)" (PyInt 0) (PyInt 5) (w_nc v)) by (do 3 right; left; reflexivity).
  rewrite (Hfin "GYP (%)" (PyInt 0) (PyInt 3) (w_gyp v)) by (do 4 right; left; reflexivity).
  rewrite (Hfin "S/B" (PyFloat 0.5) (PyFloat 2.5) (w_sb v)) by (do 5 right; left; reflexivity).
  rewrite (Hfin "W/B" (PyFloat 0.4) (PyFloat 0.55) (w_wb v)) by (do 6 right; left; reflexivity).
  rewrite (Hfin "SP (%)" (PyFloat 0.5) (PyFloat 2.5) (w_sp v)) by (do 7 right; left; reflexivity).
  reflexivity.
Qed.

(** X11: running the script again reproduces the page.  With loaded
    estimators whose answers depend on the frame alone, two runs with the
    same widget values and button state, started from any two states of
    the estimators, end the same way, render the same page and make the
    same calls. *)
Theorem rerun_reproduces_page inp clicked w1 w2 :
  deterministic (loaded "GUI_SYS.joblib") ->
  deterministic (loaded "GUI_DYS.joblib") ->
  deterministic (loaded "GUI_PV.joblib") ->
  fst (script (start inp clicked w1)) = fst (script (start inp clicked w2))
  /\ page (snd (script (start inp clicked w1))) = page (snd (script (start inp clicked w2)))
  /\ calls (snd (script (start inp clicked w1))) = calls (snd (script (start inp clicked w2))).
Proof.
  intros HS HD HP.
  pose proof (script_run (start inp clicked w1)) as R1. cbv zeta in R1.
  pose proof (script_run (start inp clicked w2)) as R2. cbv zeta in R2.
  rewrite R1, R2. clear R1 R2. cbn [start widgets].
  destruct (py_ne (PyFloat (binder_sum inp)) (PyInt 100)); [ auto | ].
  set (L1 := (flat_map load_errors artifacts ++ header_page)
               ++ [Markdown (StepTitle 2); Success BinderCheckPassed; range_report inp]).
  unfold bind. rewrite !step3_run. cbn [fst snd extend predict_btn start].
  destruct (gate _ _ _); [ | auto ].
  destruct clicked; [ | auto ].
  assert (Hall : agree (on_predict (loaded "GUI_SYS.joblib") (loaded "GUI_DYS.joblib")
                          (loaded "GUI_PV.joblib") inp)).
  { unfold on_predict. apply agree_bind; [ | apply agree_show_results ].
    apply agree_time_loop; assumption. }
  match goal with
  | |- context [on_predict _ _ _ _ ?a] =>
      match goal with
      | |- context [on_predict _ _ _ _ ?b] =>
          tryif constr_eq a b then fail else
            destruct (Hall a b) as (l & c & Hf & (_ & _ & Hp1 & Hc1) & (_ & _ & Hp2 & Hc2))
      end
  end.
  cbn [page calls extend start app] in Hp1, Hc1, Hp2, Hc2.
  destruct (on_predict _ _ _ _ _) as [[[] | t1] s1'], (on_predict _ _ _ _ _) as [[[] | t2] s2'];
    cbn [fst snd] in Hf, Hp1, Hc1, Hp2, Hc2 |- *; try discriminate.
  - unfold st_markdown. rewrite !render_run. cbn [fst snd extend page calls].
    rewrite Hp1, Hp2, Hc1, Hc2. auto.
  - injection Hf as <-. rewrite Hp1, Hp2, Hc1, Hc2. auto.
Qed.

End App.

Arguments script {W} _ _.
Arguments start {W} _ _ _.
Arguments time_loop {W} _ _ _ _ _.
Arguments on_predict {W} _ _ _ _ _.
Arguments try_body {W} _ _ _ _ _ _ _ _.
Arguments load_model {W} _ _ _.
Arguments load_models {W} _ _.
Arguments step2 {W} _ _.
Arguments extend {W} _ _.
Arguments deterministic {W} _.
Arguments never_throws {W} _.

(** ** Concrete runs *)

(** The widget defaults (50, 20, 10, 2) do not add up to 100. *)
Example sum_defaults : py_ne (PyFloat (binder_sum mix_default)) (PyInt 100) = true.
Proof. reflexivity. Qed.

(** The sum is the rounded binary64 sum, added left to right. *)
Example sum_rounding :
  py_ne (PyFloat (53.9 + 35.3 + 10.6 + 0.2)%float) (PyInt 100) = true
  /\ py_ne (PyFloat (33.33 + 33.33 + 33.34 + 0)%float) (PyInt 100) = false.
Proof. split; reflexivity. Qed.

(** A full run with the button pressed. *)
Example run_in_range :
  let r := script disk_ok (start mix_in_range true 0) in
  fst r = inl tt
  /\ world (snd r) = 6
  /\ In (Markdown (ResultTable [mkRow "10 min" 120 60 30; mkRow "30 min" 121 61 31]))
        (page (snd r)).
Proof.
  cbv zeta. vm_compute. repeat split.
  repeat (first [ left; reflexivity | right ]).
Qed.

Lemma never_throws_affine k : never_throws (affine_model k).
Proof. intros w X. eexists. eexists. reflexivity. Qed.

Lemma deterministic_affine k : deterministic (PyObject (affine_model k)).
Proof. intros w w' X. reflexivity. Qed.

(** The defaults stop the run; a mix that sums to 100 completes it. *)
Lemma binder_sum_gate_witness :
  (fst (script disk_ok (start mix_default true 0)) = inr StopException
   /\ calls (snd (script disk_ok (start mix_default true 0))) = []
   /\ world (snd (script disk_ok (start mix_default true 0))) = 0)
  /\ fst (script disk_ok (start mix_in_range true 0)) = inl tt.
Proof.
  split.
  - pose proof (binder_sum_gate nat disk_ok mix_default true 0) as H.
    cbv zeta in H.
    change ((binder_sum mix_default =? 100)%float) with false in H.
    cbv iota in H. tauto.
  - pose proof (binder_sum_gate nat disk_ok mix_in_range true 0) as H.
    cbv zeta in H.
    change ((binder_sum mix_in_range =? 100)%float) with true in H.
    cbv iota in H. tauto.
Defined.

Lemma two_rows_witness :
  exists sys0 dys0 pv0 sys1 dys1 pv1,
    fst (time_loop (PyObject (affine_model 2)) (PyObject (affine_model 1))
           (PyObject (affine_model 0.5)) mix_in_range (start mix_in_range true 0)) =
    inl [mkRow "10 min" sys0 dys0 pv0; mkRow "30 min" sys1 dys1 pv1].
Proof.
  destruct (two_rows nat (affine_model 2) (affine_model 1) (affine_model 0.5)
              mix_in_range (start mix_in_range true 0)
              (never_throws_affine 2) (never_throws_affine 1) (never_throws_affine 0.5))
    as ((w1 & w2 & w3 & w4 & w5 & w6 & sys0 & dys0 & pv0 & sys1 & dys1 & pv1 & H) & _).
  destruct H as (_ & _ & _ & _ & _ & _ & Hloop & _).
  exists sys0, dys0, pv0, sys1, dys1, pv1. rewrite Hloop. reflexivity.
Defined.

Lemma load_failure_blocks_prediction_witness :
  In (Error (CouldNotLoad "GUI_DYS.joblib" "No such file or directory"))
     (page (snd (script disk_no_dys (start mix_in_range true 0))))
  /\ existsb is_prediction_offer (page (snd (script disk_no_dys (start mix_in_range true 0)))) = false
  /\ calls (snd (script disk_no_dys (start mix_in_range true 0))) = []
  /\ world (snd (script disk_no_dys (start mix_in_range true 0))) = 0
  /\ existsb is_models_not_loaded (page (snd (script disk_no_dys (start mix_in_range true 0)))) = true.
Proof.
  apply (load_failure_blocks_prediction nat disk_no_dys "GUI_DYS.joblib"
           "No such file or directory" mix_in_range true 0).
  - right. left. reflexivity.
  - reflexivity.
Defined.

Lemma one_time_fails_witness :
  (exists row,
      row_label row = "30 min"
      /\ fst (time_loop (PyObject (affine_model 2)) (PyObject (failing_at 0 1))
                (PyObject (affine_model 0.5)) mix_in_range (start mix_in_range true 0)) =
         inl [row])
  /\ (exists row,
      row_label row = "10 min"
      /\ fst (time_loop (PyObject (affine_model 2)) (PyObject (affine_model 1))
                (PyObject (failing_at 1 0.5)) mix_in_range (start mix_in_range true 0)) =
         inl [row]).
Proof.
  split.
  - destruct (one_time_fails nat (PyObject (affine_model 2)) (PyObject (failing_at 0 1))
                (PyObject (affine_model 0.5)) mix_in_range (start mix_in_range true 0))
      as [HA _].
    edestruct HA as (row & Hl & Hr & _); [ reflexivity | reflexivity | ].
    exists row. split; assumption.
  - destruct (one_time_fails nat (PyObject (affine_model 2)) (PyObject (affine_model 1))
                (PyObject (failing_at 1 0.5)) mix_in_range (start mix_in_range true 0))
      as [_ HB].
    edestruct HB as (row & Hl & Hr & _); [ reflexivity | reflexivity | ].
    exists row. split; assumption.
Defined.

Lemma range_check_advisory_witness :
  entries_for "OPC (%)" mix_off_range =
    [mkViolation "OPC (%)" (PyFloat 38) (PyInt 40) (PyInt 100)]
  /\ entries_for "GYP (%)" mix_off_range =
    [mkViolation "GYP (%)" (PyFloat 4) (PyInt 0) (PyInt 3)]
  /\ entries_for "W/B" mix_at_bounds = []
  /\ entries_for "OPC (%)" mix_at_bounds = []
  /\ fst (script disk_ok (start mix_off_range true 0)) = inl tt.
Proof.
  split; [ | split; [ | split; [ | split ] ] ].
  - refine (proj1 (proj2 (range_check_advisory nat disk_ok mix_off_range true 0
                            "OPC (%)" (PyInt 40) (PyInt 100) (PyFloat 38) _)) _).
    + left. reflexivity.
    + left. reflexivity.
  - refine (proj1 (proj2 (range_check_advisory nat disk_ok mix_off_range true 0
                            "GYP (%)" (PyInt 0) (PyInt 3) (PyFloat 4) _)) _).
    + do 4 right. left. reflexivity.
    + right. reflexivity.
  - refine (proj1 (range_check_advisory nat disk_ok mix_at_bounds true 0
                     "W/B" (PyFloat 0.4) (PyFloat 0.55) (PyFloat 0.55) _) _).
    + do 6 right. left. reflexivity.
    + right. reflexivity.
  - refine (proj1 (range_check_advisory nat disk_ok mix_at_bounds true 0
                     "OPC (%)" (PyInt 40) (PyInt 100) (PyFloat 40) _) _).
    + left. reflexivity.
    + left. reflexivity.
  - refine (proj1 (proj2 (proj2 (proj2 (range_check_advisory nat disk_ok mix_off_range true 0
                            "OPC (%)" (PyInt 40) (PyInt 100) (PyFloat 38) _))))).
    left. reflexivity.
Defined.

Lemma load_failures_contained_witness :
  load_model disk_no_dys "GUI_DYS.joblib" (start mix_in_range false 0) =
    (inl PyNone,
     extend (start mix_in_range false 0)
            [Error (CouldNotLoad "GUI_DYS.joblib" "No such file or directory")])
  /\ load_model disk_no_dys "GUI_PV.joblib" (start mix_in_range false 0) =
    (inl (PyObject (affine_model 0.5)), start mix_in_range false 0).
Proof.
  split.
  - apply (proj1 (load_failures_contained nat disk_no_dys "GUI_DYS.joblib"
                    (start mix_in_range false 0))).
    reflexivity.
  - apply (proj1 (proj2 (load_failures_contained nat disk_no_dys "GUI_PV.joblib"
                           (start mix_in_range false 0)))).
    reflexivity.
Defined.

Lemma predict_idempotent_witness :
  fst (time_loop (PyObject (affine_model 2)) (PyObject (affine_model 1))
         (PyObject (failing_at 1 0.5)) mix_off_range (start mix_off_range true 0)) =
  fst (time_loop (PyObject (affine_model 2)) (PyObject (affine_model 1))
         (PyObject (failing_at 1 0.5)) mix_off_range
         (mkState mix_off_range true [Markdown Footer] 7 [])).
Proof.
  apply (predict_idempotent nat (PyObject (affine_model 2)) (PyObject (affine_model 1))
           (PyObject (failing_at 1 0.5)) mix_off_range
           (start mix_off_range true 0) (mkState mix_off_range true [Markdown Footer] 7 [])).
  - apply deterministic_affine.
  - apply deterministic_affine.
  - intros w w' X. reflexivity.
Defined.

(** Without determinism the rows of two presses can differ. *)
Example counting_rows_differ :
  fst (time_loop (PyObject counting_model) (PyObject counting_model) (PyObject counting_model)
         mix_in_range (start mix_in_range true 0)) =
    inl [mkRow "10 min" 0 1 2; mkRow "30 min" 3 4 5]
  /\ fst (time_loop (PyObject counting_model) (PyObject counting_model) (PyObject counting_model)
            mix_in_range (start mix_in_range true 6)) =
    inl [mkRow "10 min" 6 7 8; mkRow "30 min" 9 10 11].
Proof. split; reflexivity. Qed.

Lemma both_times_fail_witness :
  fst (time_loop (PyObject (failing_at 0 2)) (PyObject (affine_model 1))
         (PyObject (failing_at 1 0.5)) mix_in_range (start mix_in_range true 0)) = inl []
  /\ page (snd (on_predict (PyObject (failing_at 0 2)) (PyObject (affine_model 1))
                  (PyObject (failing_at 1 0.5)) mix_in_range (start mix_in_range true 0))) =
     [Error (PredictionFailed "10 min" "input contains NaN");
      Error (PredictionFailed "30 min" "input contains NaN")].
Proof.
  edestruct (both_times_fail nat (PyObject (failing_at 0 2)) (PyObject (affine_model 1))
               (PyObject (failing_at 1 0.5)) mix_in_range (start mix_in_range true 0))
    as (Hrows & _ & Hpage & _); [ reflexivity | reflexivity | ].
  split; [ exact Hrows | exact Hpage ].
Defined.

Lemma gate_tests_truthiness_witness :
  existsb is_button (page (snd (script disk_falsy_pv (start mix_in_range true 0)))) = false
  /\ existsb is_models_not_loaded
       (page (snd (script disk_falsy_pv (start mix_in_range true 0)))) = true
  /\ calls (snd (script disk_falsy_pv (start mix_in_range true 0))) = []
  /\ existsb is_button (page (snd (script disk_ok (start mix_in_range false 0)))) = true.
Proof.
  destruct (gate_tests_truthiness nat disk_falsy_pv mix_in_range true 0 eq_refl)
    as (_ & _ & _ & Hb & He & Hn).
  destruct (gate_tests_truthiness nat disk_ok mix_in_range false 0 eq_refl)
    as (_ & _ & _ & Hb' & _).
  split; [ exact Hb | ]. split; [ exact He | ]. split; [ | exact Hb' ].
  apply Hn. reflexivity.
Defined.

Lemma inputs_forwarded_as_entered_witness :
  widgets (snd (script disk_ok (start mix_off_range true 0))) = mix_off_range
  /\ calls (snd (script disk_ok (start mix_off_range true 0))) =
     [("SYS", input_data mix_off_range 0); ("DYS", input_data mix_off_range 0);
      ("PV", input_data mix_off_range 0); ("SYS", input_data mix_off_range 1);
      ("DYS", input_data mix_off_range 1); ("PV", input_data mix_off_range 1)]
  /\ df_rows (input_data mix_off_range 0) =
     [[PyFloat 38; PyFloat 43; PyFloat 15; PyFloat 2; PyFloat 4; PyFloat 1; PyFloat 0.45;
       PyFloat 1; PyInt 0]].
Proof.
  split; [ | split; reflexivity ].
  exact (proj1 (inputs_forwarded_as_entered nat disk_ok mix_off_range true 0)).
Defined.


Lemma binder_pass_finite_witness :
  is_finite (w_opc mix_in_range) = true /\ is_finite (w_cc mix_in_range) = true
  /\ is_finite (w_lp mix_in_range) = true /\ is_finite (w_gyp mix_in_range) = true.
Proof.
  apply (binder_pass_finite nat disk_ok mix_in_range true 0).
  vm_compute. reflexivity.
Defined.

(** An infinite binder value stops the run. *)
Example run_infinite_opc :
  fst (script disk_ok (start (mkInputs infinity 28 10 2 2 1 0.45 1) true 0)) =
  inr StopException.
Proof. vm_compute. reflexivity. Qed.

(** A press where PV throws at time value 0 and SYS at time value 1. *)
Example run_partial_calls :
  calls (snd (script (disk_of (inl (PyObject (failing_at 1 2)))
                              (inl (PyObject (affine_model 1)))
                              (inl (PyObject (failing_at 0 0.5))))
                     (start mix_in_range true 0))) =
  three_calls mix_in_range 0 ++ firstn 1 (three_calls mix_in_range 1).
Proof. vm_compute. reflexivity. Qed.

Lemma in_range_inputs_finite_witness :
  forallb is_finite
    [w_opc mix_at_bounds; w_cc mix_at_bounds; w_lp mix_at_bounds; w_nc mix_at_bounds;
     w_gyp mix_at_bounds; w_sb mix_at_bounds; w_wb mix_at_bounds; w_sp mix_at_bounds] = true.
Proof.
  apply (in_range_inputs_finite mix_at_bounds). reflexivity.
Defined.

Lemma rerun_reproduces_page_witness :
  fst (script disk_ok (start mix_off_range true 0)) =
    fst (script disk_ok (start mix_off_range true 11))
  /\ page (snd (script disk_ok (start mix_off_range true 0))) =
     page (snd (script disk_ok (start mix_off_range true 11)))
  /\ calls (snd (script disk_ok (start mix_off_range true 0))) =
     calls (snd (script disk_ok (start mix_off_range true 11))).
Proof.
  apply (rerun_reproduces_page nat disk_ok mix_off_range true 0 11);
    intros w w' X; reflexivity.
Defined.
